(** * The payroll and budget import scripts: join-and-load pipeline

    A shallow embedding of [scripts/import_payroll.py], of the row parser
    and the file import of [scripts/import_budgets.py] and of the sheet
    lookup, the join of the two frames, the clean-up of the records and the
    batch loop of [scripts/import_fy2025_payroll.py], with the properties
    of the field
    normalizers, the schema resolver, the row parsers, the record join and
    the batch loaders.

    Conventions of the model:
    - a Python [str] is a [string]: a sequence of code points below 256;
    - a Python [int] is a [Z]; a Python [float] is a binary64 value of
      [spec_float] (precision 53, emax 1024);
    - a Python [dict] used as a record (field name to value) is a
      [gmap string value]; a [dict] whose iteration order is observed
      ([hr_data]) is an association list in insertion order;
    - an exception is a constructor of [exn], and a call that may raise
      returns a [result]. *)

From Stdlib Require Import ZArith Ascii String DecimalString.
From Corelib Require Import SpecFloat.
From stdpp Require Import base tactics option list gmap strings.

Local Open Scope Z_scope.

(** ** Exceptions *)

Inductive exn := ValueError | TypeError | OverflowError.

Inductive result (A : Type) :=
| Ret (a : A)
| Raise (e : exn).
Arguments Ret {A} a.
Arguments Raise {A} e.

(** Sequencing: [x ← r; k] runs [k] when [r] returned, and passes the
    exception on when it raised. *)
Global Instance result_bind : MBind result := λ A B k r,
  match r with
  | Ret a => k a
  | Raise e => Raise e
  end.

(** [try: body except (ValueError, TypeError): return handler] *)
Definition except_value_type {A} (body : result A) (handler : A) : result A :=
  match body with
  | Raise ValueError | Raise TypeError => Ret handler
  | other => other
  end.

(** [try: body except Exception: return handler] *)
Definition except_exception {A} (body : result A) (handler : A) : A :=
  match body with
  | Ret a => a
  | Raise _ => handler
  end.

Definition returns {A} (r : result A) : Prop := exists a, r = Ret a.

(** ** The Python built-ins the scripts call *)

Module Py.

(** *** Strings *)

Definition code (c : ascii) : Z := Z.of_N (N_of_ascii c).

(** [str.isspace] on one code point below 256. *)
Definition isspace (c : ascii) : bool :=
  let n := code c in
  ((9 <=? n) && (n <=? 13)) || ((28 <=? n) && (n <=? 32))
  || (n =? 133) || (n =? 160).

Definition isdigit (c : ascii) : bool :=
  let n := code c in (48 <=? n) && (n <=? 57).

Fixpoint lstrip (s : list ascii) : list ascii :=
  match s with
  | c :: s' => if isspace c then lstrip s' else s
  | [] => []
  end.

Definition rstrip (s : list ascii) : list ascii := rev (lstrip (rev s)).

(** [s.strip()] *)
Definition strip (s : string) : string :=
  string_of_list_ascii (rstrip (lstrip (list_ascii_of_string s))).

Definition lower_char (c : ascii) : ascii :=
  let n := code c in
  if ((65 <=? n) && (n <=? 90))
     || ((192 <=? n) && (n <=? 222) && negb (n =? 215))
  then ascii_of_N (Z.to_N (n + 32)) else c.

(** [s.lower()] *)
Fixpoint lower (s : string) : string :=
  match s with
  | EmptyString => EmptyString
  | String c s' => String (lower_char c) (lower s')
  end.

(** [s.upper()] on the ASCII letters; the other code points are kept. *)
Definition upper_char (c : ascii) : ascii :=
  let n := code c in
  if (97 <=? n) && (n <=? 122) then ascii_of_N (Z.to_N (n - 32)) else c.

Fixpoint upper (s : string) : string :=
  match s with
  | EmptyString => EmptyString
  | String c s' => String (upper_char c) (upper s')
  end.

(** [sub in s] *)
Fixpoint contains (sub s : string) : bool :=
  String.prefix sub s ||
  match s with
  | EmptyString => false
  | String _ s' => contains sub s'
  end.

(** [str(n)] for an [int]. *)
Definition str_int (n : Z) : string := NilZero.string_of_int (Z.to_int n).

(** *** Floats *)

Definition prec : Z := 53.
Definition emax : Z := 1024.

Definition zero : spec_float := S754_zero false.

(** [bool(f)]: every float but the two zeros is true. *)
Definition float_truthy (f : spec_float) : bool :=
  match f with
  | S754_zero _ => false
  | _ => true
  end.

Definition is_finite (f : spec_float) : bool :=
  match f with
  | S754_zero _ | S754_finite _ _ _ => true
  | _ => false
  end.

(** The integer part of a finite float, rounded towards zero. *)
Definition trunc (f : spec_float) : Z :=
  match f with
  | S754_finite s m e =>
      cond_Zopp s (if 0 <=? e then Z.pos m * 2 ^ e else Z.pos m / 2 ^ (- e))
  | _ => 0
  end.

(** [int(f)] for a [float]. *)
Definition int_of_float (f : spec_float) : result Z :=
  match f with
  | S754_nan => Raise ValueError
  | S754_infinity _ => Raise OverflowError
  | _ => Ret (trunc f)
  end.

(** [float(n)] for an [int]: the nearest binary64 value, an
    [OverflowError] when it is out of range. *)
Definition float_of_int (n : Z) : result spec_float :=
  match binary_normalize prec emax n 0 false with
  | S754_infinity _ => Raise OverflowError
  | f => Ret f
  end.

(** The binary64 value nearest to [± d * 10 ^ k]. *)
Definition float_of_decimal (neg : bool) (d : Z) (k : Z) : spec_float :=
  match d with
  | Z.pos p =>
      if 0 <=? k then binary_normalize prec emax (cond_Zopp neg (d * 10 ^ k)) 0 neg
      else SFdiv prec emax (S754_finite neg p 0)
                           (S754_finite false (Z.to_pos (10 ^ (- k))) 0)
  | _ => S754_zero neg
  end.

(** Underscores of a numeric literal: allowed between two digits only. *)
Fixpoint drop_underscores (prev : ascii) (s : list ascii) : option (list ascii) :=
  match s with
  | [] => if Ascii.eqb prev "_" then None else Some []
  | c :: s' =>
      if Ascii.eqb c "_" then
        if isdigit prev then drop_underscores c s' else None
      else if Ascii.eqb prev "_" && negb (isdigit c) then None
      else cons c <$> drop_underscores c s'
  end.

Fixpoint span_digits (s : list ascii) : list ascii * list ascii :=
  match s with
  | c :: s' =>
      if isdigit c then let '(ds, r) := span_digits s' in (c :: ds, r)
      else ([], s)
  | [] => ([], [])
  end.

Definition digits_value (ds : list ascii) : Z :=
  fold_left (fun acc c => 10 * acc + (code c - 48)) ds 0.

Definition split_sign (s : list ascii) : bool * list ascii :=
  match s with
  | c :: s' =>
      if Ascii.eqb c "-" then (true, s')
      else if Ascii.eqb c "+" then (false, s')
      else (false, s)
  | [] => (false, [])
  end.

(** The exponent part: [e] or [E], an optional sign, at least one digit,
    and nothing after it. *)
Definition parse_exponent (s : list ascii) : option Z :=
  match s with
  | [] => Some 0
  | c :: s' =>
      if Ascii.eqb c "e" || Ascii.eqb c "E" then
        let '(neg, r) := split_sign s' in
        match span_digits r with
        | ((_ :: _) as ds, []) => Some (cond_Zopp neg (digits_value ds))
        | _ => None
        end
      else None
  end.

(** An unsigned decimal literal [digits [. digits] [exponent]] with at
    least one digit in the mantissa, as the pair [(d, k)] of its value
    [d * 10 ^ k]. *)
Definition parse_decimal_literal (s : list ascii) : option (Z * Z) :=
  let '(ip, r1) := span_digits s in
  let '(fp, r2) :=
    match r1 with
    | c :: r => if Ascii.eqb c "." then span_digits r else ([], r1)
    | [] => ([], r1)
    end in
  match ip ++ fp with
  | [] => None
  | ds =>
      ex ← parse_exponent r2;
      Some (digits_value ds, ex - Z.of_nat (length fp))
  end.

Definition parse_inf_nan (neg : bool) (s : list ascii) : option spec_float :=
  let w := lower (string_of_list_ascii s) in
  if String.eqb w "inf" || String.eqb w "infinity" then Some (S754_infinity neg)
  else if String.eqb w "nan" then Some S754_nan
  else None.

(** [float(s)] for a [str]. *)
Definition float_of_str (s : string) : result spec_float :=
  match drop_underscores "000" (list_ascii_of_string (strip s)) with
  | None => Raise ValueError
  | Some t =>
      let '(neg, body) := split_sign t in
      match parse_decimal_literal body with
      | Some (d, k) => Ret (float_of_decimal neg d k)
      | None =>
          match parse_inf_nan neg body with
          | Some f => Ret f
          | None => Raise ValueError
          end
      end
  end.

(** *** [str(f)] for a [float]: the shortest decimal string that reads
    back as [f], in positional notation when the decimal point falls within
    [-4 < decpt <= 16] and in exponent notation otherwise. *)

Global Instance spec_float_eq_dec : EqDecision spec_float.
Proof. solve_decision. Defined.

Definition num_digits (n : Z) : Z := Z.of_nat (String.length (str_int n)).

(** The fraction [num / den] of the finite value [m * 2 ^ e]. *)
Definition fraction (m : positive) (e : Z) : Z * Z :=
  if 0 <=? e then (Z.pos m * 2 ^ e, 1) else (Z.pos m, 2 ^ (- e)).

(** The position [k] of the decimal point:
    [10 ^ (k - 1) <= num / den < 10 ^ k]. *)
Definition decimal_point (num den : Z) : Z :=
  if den <=? num then num_digits (num / den)
  else 1 - num_digits ((den + num - 1) / num - 1).

(** With [p] significant digits and more, the first decimal
    [c * 10 ^ (k - p)] next to [m * 2 ^ e] that reads back as it; of two
    such, the nearer one. *)
Fixpoint shortest_decimal (fuel : nat) (p : Z) (m : positive) (e k : Z)
    (num den : Z) : Z * Z :=
  match fuel with
  | O => (0, 0)
  | S fuel' =>
      let q := k - p in
      let '(n', d') :=
        if q <=? 0 then (num * 10 ^ (- q), den) else (num, den * 10 ^ q) in
      let lo := n' / d' in
      let reads_back c :=
        bool_decide (float_of_decimal false c q = S754_finite false m e) in
      match reads_back lo, reads_back (lo + 1) with
      | true, true =>
          match 2 * (n' mod d') ?= d' with
          | Lt => (lo, q)
          | Gt => (lo + 1, q)
          | Eq => if Z.even lo then (lo, q) else (lo + 1, q)
          end
      | true, false => (lo, q)
      | false, true => (lo + 1, q)
      | false, false => shortest_decimal fuel' (p + 1) m e k num den
      end
  end.

Fixpoint drop_zeros (fuel : nat) (d q : Z) : Z * Z :=
  match fuel with
  | O => (d, q)
  | S fuel' =>
      if (d mod 10 =? 0) && negb (d =? 0) then drop_zeros fuel' (d / 10) (q + 1)
      else (d, q)
  end.

Definition zeros (n : Z) : string :=
  string_of_list_ascii (replicate (Z.to_nat n) "0"%char).

Definition str_finite (m : positive) (e : Z) : string :=
  let '(num, den) := fraction m e in
  let k := decimal_point num den in
  let '(d0, q0) := shortest_decimal 17 1 m e k num den in
  let '(d, q) := drop_zeros 17 d0 q0 in
  let ds := str_int d in
  let n := Z.of_nat (String.length ds) in
  let decpt := n + q in
  if (decpt <=? -4) || (16 <? decpt) then
    let mantissa :=
      match ds with
      | String c EmptyString => ds
      | String c rest => String c ("." +:+ rest)
      | EmptyString => ds
      end in
    let ex := decpt - 1 in
    let exs := str_int (Z.abs ex) in
    mantissa +:+ "e" +:+ (if ex <? 0 then "-" else "+")
      +:+ (if Nat.ltb (String.length exs) 2 then "0" +:+ exs else exs)
  else if decpt <=? 0 then "0." +:+ zeros (- decpt) +:+ ds
  else if n <=? decpt then ds +:+ zeros (decpt - n) +:+ ".0"
  else String.substring 0 (Z.to_nat decpt) ds +:+ "."
       +:+ String.substring (Z.to_nat decpt) (Z.to_nat (n - decpt)) ds.

Definition str_float (f : spec_float) : string :=
  match f with
  | S754_zero false => "0.0"
  | S754_zero true => "-0.0"
  | S754_infinity false => "inf"
  | S754_infinity true => "-inf"
  | S754_nan => "nan"
  | S754_finite false m e => str_finite m e
  | S754_finite true m e => "-" +:+ str_finite m e
  end.

(** [int(s)] for a [str], in base 10. (The limit that Python 3.11 puts on
    the number of digits of such a conversion is not modelled.) *)
Definition int_of_str (s : string) : result Z :=
  let '(neg, body) := split_sign (list_ascii_of_string (strip s)) in
  match drop_underscores "000" body with
  | Some ((_ :: _) as ds) =>
      if forallb isdigit ds then Ret (cond_Zopp neg (digits_value ds))
      else Raise ValueError
  | _ => Raise ValueError
  end.

End Py.

(** ** Cell values

    A cell of a sheet holds nothing, a boolean, a number, a text or a
    date; the fields of a record sent to the store are values too. *)

Inductive value :=
| VNone
| VBool (b : bool)
| VInt (n : Z)
| VFloat (f : spec_float)
| VStr (s : string)
| VDate (t : Z).

(** [isinstance(value, (int, float))]; [bool] is a subclass of [int]. *)
Definition is_number (v : value) : bool :=
  match v with
  | VBool _ | VInt _ | VFloat _ => true
  | _ => false
  end.

(** [bool(value)] for a number. *)
Definition number_truthy (v : value) : bool :=
  match v with
  | VBool b => b
  | VInt n => negb (n =? 0)
  | VFloat f => Py.float_truthy f
  | _ => false
  end.

(** [str(value)] for a number. *)
Definition str_number (v : value) : string :=
  match v with
  | VBool true => "True"
  | VBool false => "False"
  | VInt n => Py.str_int n
  | VFloat f => Py.str_float f
  | _ => ""
  end.

(** [int(value)] for a number. *)
Definition int_number (v : value) : result Z :=
  match v with
  | VBool b => Ret (Z.b2z b)
  | VInt n => Ret n
  | VFloat f => Py.int_of_float f
  | _ => Raise TypeError
  end.

(** [float(value)] for a number. *)
Definition float_number (v : value) : result spec_float :=
  match v with
  | VBool b => Py.float_of_int (Z.b2z b)
  | VInt n => Py.float_of_int n
  | VFloat f => Ret f
  | _ => Raise TypeError
  end.

Definition blank_or_dash (s : string) : bool :=
  String.eqb s "" || String.eqb s "-".

(** A record: field name to value. *)
Abbreviation record := (gmap string value).

Global Instance value_eq_dec : EqDecision value.
Proof. solve_decision. Defined.

(** ** Batches and the store

    [for i in range(0, len(records), BATCH_SIZE):
       batch = records[i:i + BATCH_SIZE]] *)

(** [range(i, stop, step)] for a positive [step]; [fuel] bounds the number
    of its elements. *)
Fixpoint range_from (fuel i stop step : nat) : list nat :=
  match fuel with
  | O => []
  | S fuel' =>
      if Nat.ltb i stop then i :: range_from fuel' (i + step) stop step
      else []
  end.

(** [range(0, stop, step)] *)
Definition range (stop step : nat) : list nat := range_from stop 0 stop step.

(** [records[i:j]] *)
Definition slice {A} (records : list A) (i j : nat) : list A :=
  take (j - i) (drop i records).

Definition batches {A} (records : list A) (batch_size : nat) : list (list A) :=
  (λ i, slice records i (i + batch_size)) <$> range (length records) batch_size.

(** What [....execute()] gives: an exception, or a result with its [data]
    (no data and empty data alike are [[]]). *)
Inductive outcome :=
| Raised
| Data (data : list record).

(** A call of the store on a batch, with whether it returned ([ok]) or
    raised. *)
Inductive call :=
| Upsert (batch : list record) (ok : bool)
| Insert (batch : list record) (ok : bool).

Definition call_batch (c : call) : list record :=
  match c with
  | Upsert batch _ | Insert batch _ => batch
  end.

Definition is_insert (c : call) : bool :=
  match c with
  | Insert _ _ => true
  | Upsert _ _ => false
  end.

(** The rows of the batches whose insert raised. *)
Definition failed_rows (cs : list call) : nat :=
  sum_list ((λ c, match c with
                  | Insert batch false => length batch
                  | _ => 0%nat
                  end) <$> cs).

(** The loader at some point of its loop: the store, the count so far,
    the rows counted as skipped and the calls made, oldest first. *)
Record load_state (St : Type) := {
  store : St;
  total_inserted : nat;
  skipped : nat;
  calls : list call
}.
Arguments store {St} _.
Arguments total_inserted {St} _.
Arguments skipped {St} _.
Arguments calls {St} _.

(** ** [scripts/import_payroll.py] *)

Module import_payroll.

Definition BATCH_SIZE : nat := 1000.

(** *** Field normalizers *)

Definition parse_integer (value : value) : result (option Z) :=
  match value with
  | VNone => Ret None
  | VBool _ | VInt _ | VFloat _ =>
      except_value_type (n ← int_number value; Ret (Some n)) None
  | VStr s =>
      let value := Py.strip s in
      if blank_or_dash value then Ret None
      else except_value_type
             (f ← Py.float_of_str value; n ← Py.int_of_float f; Ret (Some n))
             None
  | VDate _ => Ret None
  end.

Definition parse_float (value : value) : result (option spec_float) :=
  match value with
  | VNone => Ret None
  | VBool _ | VInt _ | VFloat _ =>
      except_value_type (f ← float_number value; Ret (Some f)) None
  | VStr s =>
      let value := Py.strip s in
      if blank_or_dash value then Ret None
      else except_value_type (f ← Py.float_of_str value; Ret (Some f)) None
  | VDate _ => Ret None
  end.

Definition parse_text (value : value) : result (option string) :=
  match value with
  | VNone => Ret None
  | VBool _ | VInt _ | VFloat _ =>
      Ret (if number_truthy value then Some (Py.strip (str_number value))
           else None)
  | VStr s =>
      let value := Py.strip s in
      Ret (if blank_or_dash value then None else Some value)
  | VDate _ => Ret None
  end.

Definition parse_last_hire_date (value : value) : result (option string) :=
  match value with
  | VNone => Ret None
  | VBool _ | VInt _ | VFloat _ =>
      n ← int_number value; Ret (Some (Py.str_int n))
  | VStr s =>
      let value := Py.strip s in
      if blank_or_dash value then Ret None
      else except_value_type
             (f ← Py.float_of_str value; n ← Py.int_of_float f;
              Ret (Some (Py.str_int n)))
             (if String.eqb value "" then None else Some value)
  | VDate _ => Ret None
  end.

(** [parse_float(value) or 0.0], the wage fields of an earnings row. *)
Definition or_zero (r : option spec_float) : spec_float :=
  match r with
  | Some f => if Py.float_truthy f then f else Py.zero
  | None => Py.zero
  end.

Definition parse_wage (value : value) : result spec_float :=
  r ← parse_float value; Ret (or_zero r).

(** *** Sheets

    A workbook is the list of its sheets in order, each with its name; a
    sheet is its header row (row 1) and the rows below it. *)

Record sheet := { header : list value; rows : list (list value) }.

Abbreviation workbook := (list (string * sheet)).

Definition sheetnames (wb : workbook) : list string := wb.*1.

(** [workbook[name]] for a name of [workbook.sheetnames]. *)
Definition get_sheet (wb : workbook) (name : string) : sheet :=
  default {| header := []; rows := [] |}
          (snd <$> List.find (λ entry, String.eqb (fst entry) name) wb).

Fixpoint find_in_sheetnames (names : list string) (pattern : string)
    : option string :=
  match names with
  | [] => None
  | sheet_name :: rest =>
      if Py.contains (Py.lower pattern) (Py.lower sheet_name)
      then Some sheet_name
      else find_in_sheetnames rest pattern
  end.

Definition find_sheet_by_pattern (wb : workbook) (pattern : string)
    : option string :=
  find_in_sheetnames (sheetnames wb) pattern.

(** [col_name and 'ACTIVE_ON_JUNE_30' in str(col_name).upper()]: the
    string form of a cell that is not a text has no such part. *)
Definition is_active_column (col_name : value) : option string :=
  match col_name with
  | VStr s =>
      if negb (String.eqb s "")
         && Py.contains "ACTIVE_ON_JUNE_30" (Py.upper s)
      then Some s else None
  | _ => None
  end.

Fixpoint first_active_column (header_row : list value) : option string :=
  match header_row with
  | [] => None
  | col_name :: rest =>
      match is_active_column col_name with
      | Some s => Some s
      | None => first_active_column rest
      end
  end.

Definition get_active_column_name (wb : workbook) (fiscal_year : Z)
    : option string :=
  match find_sheet_by_pattern wb "HR INFO" with
  | None => None
  | Some hr_sheet_name => first_active_column (header (get_sheet wb hr_sheet_name))
  end.

(** *** Rows *)

(** [data[header] = row[i] if i < len(row) else None], header by header. *)
Definition row_data (row headers : list value) : list (value * value) :=
  imap (λ i header, (header, default VNone (row !! i))) headers.

(** [data.get(key)] for a text key: the cell of the last header equal to
    it, [None] without one. *)
Definition data_get (data : list (value * value)) (key : string) : value :=
  fold_left
    (λ found entry,
       match fst entry with
       | VStr h => if String.eqb h key then snd entry else found
       | _ => found
       end)
    data VNone.

Inductive kind := Text | Integer | Float | LastHireDate | Wage.

Definition text_value (o : option string) : value := from_option VStr VNone o.

Definition normalize (k : kind) (cell : value) : result value :=
  match k with
  | Text => t ← parse_text cell; Ret (text_value t)
  | Integer => n ← parse_integer cell; Ret (from_option VInt VNone n)
  | Float => f ← parse_float cell; Ret (from_option VFloat VNone f)
  | LastHireDate => t ← parse_last_hire_date cell; Ret (text_value t)
  | Wage => f ← parse_wage cell; Ret (VFloat f)
  end.

(** The fields of the dict literal after ['temporary_id'], each with its
    normalizer and its column. *)
Fixpoint parse_columns (columns : list (string * kind * string))
    (data : list (value * value)) (parsed : record) : result record :=
  match columns with
  | [] => Ret parsed
  | (field, k, column) :: rest =>
      v ← normalize k (data_get data column);
      parse_columns rest data (<[field := v]> parsed)
  end.

Definition hr_columns : list (string * kind * string) :=
  [ ("record_nbr", Integer, "RECORD_NBR");
    ("employee_name", Text, "EMPLOYEE_NAME");
    ("agency_nbr", Text, "AGENCY_NBR");
    ("agency_name", Text, "AGENCY_NAME");
    ("department_nbr", Text, "DEPARTMENT_NBR");
    ("department_name", Text, "DEPARTMENT_NAME");
    ("branch_code", Text, "BRANCH_CODE");
    ("branch_name", Text, "BRANCH_NAME");
    ("job_code", Text, "JOB_CODE");
    ("job_title", Text, "JOB_TITLE");
    ("location_nbr", Text, "LOCATION_NBR");
    ("location_name", Text, "LOCATION_NAME");
    ("location_county_name", Text, "LOCATION_COUNTY_NAME");
    ("reg_temp_code", Text, "REG_TEMP_CODE");
    ("reg_temp_desc", Text, "REG_TEMP_DESC");
    ("classified_code", Text, "CLASSIFIED_CODE");
    ("classified_desc", Text, "CLASSIFIED_DESC");
    ("original_hire_date", Integer, "ORIGINAL_HIRE_DATE");
    ("last_hire_date", LastHireDate, "LAST_HIRE_DATE");
    ("job_entry_date", Integer, "JOB_ENTRY_DATE");
    ("full_part_time_code", Text, "FULL_PART_TIME_CODE");
    ("full_part_time_desc", Text, "FULL_PART_TIME_DESC");
    ("salary_plan_grid", Text, "SALARY_PLAN_GRID");
    ("salary_grade_range", Integer, "SALARY_GRADE_RANGE");
    ("max_salary_step", Integer, "MAX_SALARY_STEP");
    ("compensation_rate", Float, "COMPENSATION_RATE");
    ("comp_frequency_code", Text, "COMP_FREQUENCY_CODE");
    ("comp_frequency_desc", Text, "COMP_FREQUENCY_DESC");
    ("position_fte", Float, "POSITION_FTE");
    ("bargaining_unit_nbr", Integer, "BARGAINING_UNIT_NBR");
    ("bargaining_unit_name", Text, "BARGAINING_UNIT_NAME") ].

Definition earnings_columns : list (string * kind * string) :=
  [ ("regular_wages", Wage, "REGULAR_WAGES");
    ("overtime_wages", Wage, "OVERTIME_WAGES");
    ("other_wages", Wage, "OTHER_WAGES");
    ("total_wages", Wage, "TOTAL_WAGES") ].

(** [if not temporary_id: return None] *)
Definition truthy_text (t : option string) : option string :=
  match t with
  | Some s => if String.eqb s "" then None else Some s
  | None => None
  end.

Definition parse_hr_row (row headers : list value)
    (active_col_name : option string) : option record :=
  except_exception
    (let data := row_data row headers in
     t ← parse_text (data_get data "TEMPORARY_ID");
     match truthy_text t with
     | None => Ret None
     | Some temporary_id =>
         parsed ← parse_columns hr_columns data {[ "temporary_id" := VStr temporary_id ]};
         active ← match active_col_name with
                  | Some column => parse_text (data_get data column)
                  | None => Ret None
                  end;
         Ret (Some (<["active_on_june_30" := text_value active]> parsed))
     end)
    None.

Definition parse_earnings_row (row headers : list value) : option record :=
  except_exception
    (let data := row_data row headers in
     t ← parse_text (data_get data "TEMPORARY_ID");
     match truthy_text t with
     | None => Ret None
     | Some temporary_id =>
         parsed ← parse_columns earnings_columns data {[ "temporary_id" := VStr temporary_id ]};
         Ret (Some parsed)
     end)
    None.

(** *** The import of one file *)

(** [dict[k] = v] on a dict whose order is observed: a key keeps the
    place of its first insertion. *)
Fixpoint dict_set {V} (k : string) (v : V) (d : list (string * V))
    : list (string * V) :=
  match d with
  | [] => [(k, v)]
  | (k', v') :: d' =>
      if String.eqb k' k then (k, v) :: d' else (k', v') :: dict_set k v d'
  end.

(** [parsed and parsed['temporary_id']]: the identifier of a parsed row,
    which is a non-empty text. *)
Definition row_id (parsed : option record) : option string :=
  match parsed with
  | Some parsed =>
      match parsed !! "temporary_id" with
      | Some (VStr s) => if String.eqb s "" then None else Some s
      | _ => None
      end
  | None => None
  end.

Definition add_hr_row (headers : list value) (active_col_name : option string)
    (hr_data : list (string * record)) (row : list value)
    : list (string * record) :=
  let parsed := parse_hr_row row headers active_col_name in
  match row_id parsed, parsed with
  | Some temporary_id, Some parsed => dict_set temporary_id parsed hr_data
  | _, _ => hr_data
  end.

Definition read_hr (hr_sheet : sheet) (active_col_name : option string)
    : list (string * record) :=
  fold_left (add_hr_row (header hr_sheet) active_col_name) (rows hr_sheet) [].

Definition add_earnings_row (headers : list value)
    (earnings_data : gmap string record) (row : list value)
    : gmap string record :=
  let parsed := parse_earnings_row row headers in
  match row_id parsed, parsed with
  | Some temporary_id, Some parsed => <[temporary_id := parsed]> earnings_data
  | _, _ => earnings_data
  end.

Definition read_earnings (earnings_sheet : sheet) : gmap string record :=
  fold_left (add_earnings_row (header earnings_sheet)) (rows earnings_sheet) ∅.

(** [earnings_record.get(field, 0.0)] *)
Definition wage_field (earnings_record : record) (field : string) : value :=
  default (VFloat Py.zero) (earnings_record !! field).

Definition combine (fiscal_year : Z) (earnings_data : gmap string record)
    (entry : string * record) : record :=
  let earnings_record := default ∅ (earnings_data !! entry.1) in
  <["total_wages" := wage_field earnings_record "total_wages"]>
  (<["other_wages" := wage_field earnings_record "other_wages"]>
  (<["overtime_wages" := wage_field earnings_record "overtime_wages"]>
  (<["regular_wages" := wage_field earnings_record "regular_wages"]>
  (<["fiscal_year" := VStr (Py.str_int fiscal_year)]> entry.2)))).

Definition join (fiscal_year : Z) (hr_data : list (string * record))
    (earnings_data : gmap string record) : list record :=
  combine fiscal_year earnings_data <$> hr_data.

(** The combined records of a workbook, [None] when one of the two sheets
    is not found. *)
Definition combined_records (wb : workbook) (fiscal_year : Z)
    : option (list record) :=
  match find_sheet_by_pattern wb "HR INFO",
        find_sheet_by_pattern wb "EARNINGS" with
  | Some hr_sheet_name, Some earnings_sheet_name =>
      let active_col_name := get_active_column_name wb fiscal_year in
      let hr_data := read_hr (get_sheet wb hr_sheet_name) active_col_name in
      let earnings_data := read_earnings (get_sheet wb earnings_sheet_name) in
      Some (join fiscal_year hr_data earnings_data)
  | _, _ => None
  end.

Section Loader.
Context {St : Type}.
(** [supabase.table('payroll').insert(batch).execute()] *)
Variable insert : St → list record → St * outcome.

Definition insert_batch (s : load_state St) (batch : list record)
    : load_state St :=
  let '(st, out) := insert (store s) batch in
  match out with
  | Data data =>
      let inserted :=
        match data with [] => length batch | _ => length data end in
      {| store := st;
         total_inserted := total_inserted s + inserted;
         skipped := skipped s;
         calls := calls s ++ [Insert batch true] |}
  | Raised =>
      {| store := st;
         total_inserted := total_inserted s;
         skipped := skipped s + length batch;
         calls := calls s ++ [Insert batch false] |}
  end.

Definition start (st : St) : load_state St :=
  {| store := st; total_inserted := 0; skipped := 0; calls := [] |}.

(** The batch insert of the combined records. *)
Definition load (batch_size : nat) (st : St) (records : list record)
    : load_state St :=
  fold_left insert_batch (batches records batch_size) (start st).

(** [import_payroll_file]: the workbook is [None] when it cannot be
    opened; the pair returned is [(total_inserted, skipped)] of the
    final state. *)
Definition import_payroll_file_with (batch_size : nat) (st : St)
    (file : option workbook) (fiscal_year : Z) : load_state St :=
  match file with
  | None => start st
  | Some wb =>
      match combined_records wb fiscal_year with
      | None | Some [] => start st
      | Some records => load batch_size st records
      end
  end.

Definition import_payroll_file := import_payroll_file_with BATCH_SIZE.

End Loader.

End import_payroll.

(** ** [scripts/import_budgets.py] *)

Module import_budgets.

Definition BATCH_SIZE : nat := 1000.

Definition remove_commas (s : string) : string :=
  string_of_list_ascii
    (filter (λ c, c ≠ ","%char) (list_ascii_of_string s)).

(** A value of a CSV row is a text, or [None] in a short row. *)
Definition parse_decimal (value : option string) : result spec_float :=
  match value with
  | None => Ret Py.zero
  | Some value =>
      if String.eqb value "" || String.eqb (Py.strip value) "" then Ret Py.zero
      else
        let cleaned := remove_commas (Py.strip value) in
        except_value_type (Py.float_of_str cleaned) Py.zero
  end.

(** A row of [csv.DictReader]: column name to text, [None] for the columns
    a short row does not reach. *)
Abbreviation csv_row := (gmap string (option string)).

(** [row.get(key, default)] *)
Definition row_get (row : csv_row) (key default : string) : option string :=
  match row !! key with
  | Some v => v
  | None => Some default
  end.

(** [not value or not value.strip()] *)
Definition blank (value : option string) : bool :=
  match value with
  | None => true
  | Some value => String.eqb value "" || String.eqb (Py.strip value) ""
  end.

Definition parse_integer (value : option string) : result (option Z) :=
  match value with
  | Some text =>
      if blank value then Ret None
      else except_value_type (n ← Py.int_of_str (Py.strip text); Ret (Some n))
                             None
  | None => Ret None
  end.

Definition normalize_text (value : option string) : option string :=
  match value with
  | Some text => if blank value then None else Some (Py.strip text)
  | None => None
  end.

Definition text_columns : list (string * string) :=
  [ ("agency", "Agency"); ("fund", "Fund"); ("program", "Program");
    ("activity", "Activity") ].

Definition amount_columns : list (string * string) :=
  [ ("available_amount", "Available Amount");
    ("obligated_amount", "Obligated Amount");
    ("spend_amount", "Spend Amount");
    ("remaining_amount", "Remaining Amount");
    ("budget_amount", "Budget Amount");
    ("budget_remaining_amount", "Budget Remaining Amount") ].

(** The text fields of the dict literal: [normalize_text(row.get(column, ''))]. *)
Definition add_texts (row : csv_row) (parsed : record) : record :=
  foldr (λ '(field, column) acc,
           <[field := from_option VStr VNone
                        (normalize_text (row_get row column ""))]> acc)
        parsed text_columns.

(** The amount fields: [parse_decimal(row.get(column, '0'))]. *)
Fixpoint add_amounts (columns : list (string * string)) (row : csv_row)
    (parsed : record) : result record :=
  match columns with
  | [] => Ret parsed
  | (field, column) :: rest =>
      amount ← parse_decimal (row_get row column "0");
      add_amounts rest row (<[field := VFloat amount]> parsed)
  end.

Definition parse_budget_row (row : csv_row) : option record :=
  except_exception
    (p ← parse_integer (row_get row "Budget Period" "");
     match p with
     | None => Ret None
     | Some budget_period =>
         parsed ← add_amounts amount_columns row
                              (add_texts row {[ "budget_period" := VInt budget_period ]});
         Ret (Some parsed)
     end)
    None.

(** The reading loop of [import_budget_file]: the records of the rows that
    parse, in order, and the number of the rows that do not. *)
Definition read_row (acc : list record * nat) (row : csv_row)
    : list record * nat :=
  match parse_budget_row row with
  | Some parsed => (acc.1 ++ [parsed], acc.2)
  | None => (acc.1, S acc.2)
  end.

Definition read_rows (rows : list csv_row) : list record * nat :=
  fold_left read_row rows ([], 0%nat).

Section Loader.
Context {St : Type}.
(** [supabase.table('budgets').upsert(batch, on_conflict=...).execute()]
    and [supabase.table('budgets').insert(batch).execute()] *)
Variable upsert : St → list record → St * outcome.
Variable insert : St → list record → St * outcome.

(** The loop over the batches; [true] when the fallback insert raised
    too and the exception left the loop. *)
Fixpoint load_batches (bs : list (list record)) (s : load_state St)
    : load_state St * bool :=
  match bs with
  | [] => (s, false)
  | batch :: rest =>
      let '(st1, out1) := upsert (store s) batch in
      match out1 with
      | Data data =>
          load_batches rest
            {| store := st1;
               total_inserted := total_inserted s + length data;
               skipped := skipped s;
               calls := calls s ++ [Upsert batch true] |}
      | Raised =>
          let '(st2, out2) := insert st1 batch in
          match out2 with
          | Data data =>
              let inserted :=
                match data with [] => length batch | _ => length data end in
              load_batches rest
                {| store := st2;
                   total_inserted := total_inserted s + inserted;
                   skipped := skipped s;
                   calls := calls s ++ [Upsert batch false; Insert batch true] |}
          | Raised =>
              ({| store := st2;
                  total_inserted := total_inserted s;
                  skipped := skipped s;
                  calls := calls s ++ [Upsert batch false; Insert batch false] |}, true)
          end
      end
  end.

(** [import_budget_file] from the parsed [records] and the count
    [skipped] of the rows that did not parse on: an exception that leaves
    the loop is caught by the outer handler, which returns
    [(0, skipped)]. *)
Definition load_with (batch_size : nat) (st : St) (records : list record)
    (skipped : nat) : load_state St :=
  let s0 := {| store := st; total_inserted := 0; skipped := skipped;
               calls := [] |} in
  match records with
  | [] => s0
  | _ =>
      let '(s, raised) := load_batches (batches records batch_size) s0 in
      if raised
      then {| store := store s; total_inserted := 0; skipped := skipped;
              calls := calls s |}
      else s
  end.

Definition load := load_with BATCH_SIZE.

(** [import_budget_file]: the file is [None] when it is not found, and the
    rows of its reader otherwise. *)
Definition import_budget_file_with (batch_size : nat) (st : St)
    (file : option (list csv_row)) : load_state St :=
  match file with
  | None => {| store := st; total_inserted := 0; skipped := 0; calls := [] |}
  | Some rows =>
      let '(records, skipped) := read_rows rows in
      load_with batch_size st records skipped
  end.

Definition import_budget_file := import_budget_file_with BATCH_SIZE.

End Loader.

End import_budgets.

(** ** [scripts/import_fy2025_payroll.py] *)

Module import_fy2025_payroll.

Definition BATCH_SIZE : nat := 1000.
Definition FISCAL_YEAR : string := "2025".

(** [next((s for s in xl.sheet_names if pattern in s), None)] *)
Fixpoint find_sheet (sheet_names : list string) (pattern : string)
    : option string :=
  match sheet_names with
  | [] => None
  | s :: rest =>
      if Py.contains pattern s then Some s else find_sheet rest pattern
  end.

(** *** The frames

    A frame of pandas is the list of its rows in order, each a record from
    column name to cell; a cell that a row does not have is the empty cell
    of pandas, NaN. The two frames have the key column in common and no
    other. *)
Definition cell (row : record) (column : string) : value :=
  default (VFloat S754_nan) (row !! column).

(** [frame.drop_duplicates(subset=[column], keep="first")]: of the rows
    with one value in the column, the first is kept. *)
Definition drop_duplicates (column : string) (frame : list record)
    : list record :=
  fold_left
    (λ kept row,
       if bool_decide (cell row column ∈ (λ r, cell r column) <$> kept)
       then kept else kept ++ [row])
    frame [].

(** [hr.merge(earnings, on=column, how="left")]: the rows of [hr] in
    order, each with the columns of every row of [earnings] that has its
    value in the column, and as it is when there is none. *)
Definition merge (column : string) (hr earnings : list record)
    : list record :=
  hr ≫= λ l,
    match filter (λ r, cell r column = cell l column) earnings with
    | [] => [l]
    | matches => (λ r, l ∪ r) <$> matches
    end.

(** The frame [df] of [main] after the join and the fiscal year:
    [earnings = earnings.drop_duplicates(subset=["TEMPORARY_ID"], keep="first")],
    [df = hr.merge(earnings, on="TEMPORARY_ID", how="left")] and
    [df["fiscal_year"] = FISCAL_YEAR]. *)
Definition df (hr earnings : list record) : list record :=
  let earnings := drop_duplicates "TEMPORARY_ID" earnings in
  let df := merge "TEMPORARY_ID" hr earnings in
  (λ row, <["fiscal_year" := VStr FISCAL_YEAR]> row) <$> df.

Definition int_cols_set : list string :=
  [ "record_nbr"; "original_hire_date"; "job_entry_date"; "salary_grade_range";
    "max_salary_step"; "bargaining_unit_nbr" ].

(** [float(v)] for a value of any type. *)
Definition float_value (v : value) : result spec_float :=
  match v with
  | VBool _ | VInt _ | VFloat _ => float_number v
  | VStr s => Py.float_of_str s
  | VNone | VDate _ => Raise TypeError
  end.

(** One item [(k, v)] of a record in the loop before the upsert: a NaN
    becomes [None]; in an integer column a value that is not [None] becomes
    [int(float(v))], and [None] under [except (TypeError, ValueError)]. *)
Definition clean_item (k : string) (v : value) : result value :=
  match v with
  | VFloat S754_nan => Ret VNone
  | VNone => Ret VNone
  | _ =>
      if bool_decide (k ∈ int_cols_set)
      then except_value_type
             (f ← float_value v; n ← Py.int_of_float f; Ret (VInt n)) VNone
      else Ret v
  end.

(** [for k, v in list(r.items()): ...], which assigns [r[k]] item by
    item. *)
Definition clean_record (r : record) : result record :=
  map_fold (λ k v acc, r' ← acc; v' ← clean_item k v; Ret (<[k := v']> r'))
           (Ret r) r.

(** [for r in records: ...]: the first exception ends the run. *)
Fixpoint clean_records (records : list record) : result (list record) :=
  match records with
  | [] => Ret []
  | r :: rest =>
      r' ← clean_record r; rest' ← clean_records rest; Ret (r' :: rest')
  end.

Section Loader.
Context {St : Type}.
(** [supabase.schema("checkbook").from_("payroll").upsert(batch,
    on_conflict=...).execute()] *)
Variable upsert : St → list record → St * outcome.

(** The loop of [main] over the batches. It has no handler: an exception
    of [upsert] leaves the loop and ends the run ([true]). The count is the
    number of rows the script prints as upserted. *)
Fixpoint upsert_batches (bs : list (list record)) (s : load_state St)
    : load_state St * bool :=
  match bs with
  | [] => (s, false)
  | batch :: rest =>
      let '(st, out) := upsert (store s) batch in
      match out with
      | Data _ =>
          upsert_batches rest
            {| store := st;
               total_inserted := total_inserted s + length batch;
               skipped := skipped s;
               calls := calls s ++ [Upsert batch true] |}
      | Raised =>
          ({| store := st;
              total_inserted := total_inserted s;
              skipped := skipped s;
              calls := calls s ++ [Upsert batch false] |}, true)
      end
  end.

Definition load_with (batch_size : nat) (st : St) (records : list record)
    : load_state St * bool :=
  upsert_batches (batches records batch_size)
    {| store := st; total_inserted := 0; skipped := 0; calls := [] |}.

Definition load := load_with BATCH_SIZE.

End Loader.

End import_fy2025_payroll.

(** ** The scenario of the spec: five records in batches of two *)

Definition scenario_records : list record :=
  (λ i, {[ "temporary_id" := VStr (Py.str_int i) ]}) <$> [1; 2; 3; 4; 5].

(** A store without state: a call returns the rows it was given on a batch
    of two records and raises on any other batch, so that of the three
    batches of the scenario the third one fails. *)
Definition scenario_store (st : unit) (batch : list record) : unit * outcome :=
  (st, if bool_decide (length batch = 2%nat) then Data batch else Raised).

(** ** A small workbook

    One person with two employment records, a row without identifier, and
    two earnings rows under the person's identifier. *)

Definition example_hr_sheet : import_payroll.sheet :=
  {| import_payroll.header := [VStr "TEMPORARY_ID"; VStr "RECORD_NBR"];
     import_payroll.rows :=
       [ [VStr "A1"; VInt 1]; [VStr "A1"; VInt 2]; [VStr ""; VInt 3] ] |}.

Definition example_earnings_sheet : import_payroll.sheet :=
  {| import_payroll.header := [VStr "TEMPORARY_ID"; VStr "REGULAR_WAGES"];
     import_payroll.rows :=
       [ [VStr "A1"; VStr "100.50"]; [VStr "A1"; VInt 200] ] |}.

Definition example_workbook : import_payroll.workbook :=
  [ ("FY20 HR INFO", example_hr_sheet);
    ("FY20 EARNINGS", example_earnings_sheet) ].

(** The two sheets of the small workbook as frames: the wages [100.5] and
    [200.0] under the identifier ["A1"]. *)
Definition example_hr_frame : list record :=
  [ {[ "TEMPORARY_ID" := VStr "A1"; "RECORD_NBR" := VInt 1 ]};
    {[ "TEMPORARY_ID" := VStr "A1"; "RECORD_NBR" := VInt 2 ]};
    {[ "RECORD_NBR" := VInt 3 ]} ].

Definition example_earnings_frame : list record :=
  [ {[ "TEMPORARY_ID" := VStr "A1";
       "REGULAR_WAGES" := VFloat (S754_finite false 7072058789855232 (-46)) ]};
    {[ "TEMPORARY_ID" := VStr "A1";
       "REGULAR_WAGES" := VFloat (S754_finite false 7036874417766400 (-45)) ]} ].


(** The roster rows that have an identifier. *)
Definition valid_roster_rows (hr_sheet : import_payroll.sheet)
    (active_col_name : option string) : list (list value) :=
  filter (λ row, is_Some (import_payroll.row_id
                            (import_payroll.parse_hr_row
                               row (import_payroll.header hr_sheet)
                               active_col_name)))
         (import_payroll.rows hr_sheet).

(** The identifiers of the roster rows that have one, row by row. *)
Definition roster_identifiers (hr_sheet : import_payroll.sheet)
    (active_col_name : option string) : list string :=
  omap (λ row, import_payroll.row_id
                 (import_payroll.parse_hr_row
                    row (import_payroll.header hr_sheet) active_col_name))
       (import_payroll.rows hr_sheet).

(** The elements of a list in the order of their first occurrence. *)
Definition first_occurrences (l : list string) : list string :=
  fold_left (λ seen k, if bool_decide (k ∈ seen) then seen else seen ++ [k])
            l [].

(** ** The schema of the payroll records *)

(** What a field of a kind may hold. *)
Definition has_kind (k : import_payroll.kind) (v : value) : Prop :=
  match k, v with
  | (import_payroll.Text | import_payroll.LastHireDate), (VNone | VStr _) => True
  | import_payroll.Integer, (VNone | VInt _) => True
  | import_payroll.Float, (VNone | VFloat _) => True
  | import_payroll.Wage, VFloat _ => True
  | _, _ => False
  end.

(** The fields of a parsed roster row, and those of a combined record. *)
Definition hr_schema : gset string :=
  list_to_set ("temporary_id" :: "active_on_june_30"
               :: (import_payroll.hr_columns.*1).*1).

Definition wage_fields : list string :=
  ["regular_wages"; "overtime_wages"; "other_wages"; "total_wages"].

Definition payroll_schema : gset string :=
  hr_schema ∪ list_to_set ("fiscal_year" :: wage_fields).

(** A row of a budget file: no column for four of the amounts, white space
    around the agency, separators in an amount. *)
Definition example_budget_row : import_budgets.csv_row :=
  list_to_map
    [ ("Budget Period", Some "2024"); ("Agency", Some " Health ");
      ("Fund", Some ""); ("Program", None);
      ("Available Amount", Some "1,234.50"); ("Spend Amount", Some "n/a") ].

(** A record of the FY2025 import before its clean-up: an integer column
    read as a float, one read as a text that is no number, and a NaN. *)
Definition example_fy2025_record : record :=
  list_to_map
    [ ("temporary_id", VStr "A1");
      ("record_nbr", VFloat (S754_finite false 4503599627370496 (-52)));
      ("max_salary_step", VStr "n/a");
      ("position_fte", VFloat S754_nan) ].

(** The fields of a budget record. *)
Definition budget_schema : gset string :=
  list_to_set ("budget_period" :: import_budgets.text_columns.*1
               ++ import_budgets.amount_columns.*1).

(** * Properties *)

(** ** Strings *)

Lemma prefix_append (a s : string) :
  String.prefix a s = true ↔ ∃ t, s = a +:+ t.
Proof.
  revert s. induction a as [|c a IH]; intros s; simpl.
  - split; [intros _; by exists s | by destruct s].
  - destruct s as [|c' s]; simpl.
    + split; [done | intros [t Ht]; discriminate].
    + destruct (ascii_dec c c') as [->|Hne].
      * rewrite IH. split; intros [t Ht]; exists t.
        -- by rewrite Ht.
        -- by injection Ht.
      * split; [done | intros [t Ht]; by injection Ht].
Qed.

Lemma contains_nil (sub : string) :
  Py.contains sub "" = String.prefix sub "".
Proof. unfold Py.contains. apply orb_false_r. Qed.

Lemma contains_cons (sub : string) (c : ascii) (s : string) :
  Py.contains sub (String c s)
  = String.prefix sub (String c s) || Py.contains sub s.
Proof. reflexivity. Qed.

(** [sub in s] holds exactly when [sub] is a part of [s]. *)
Lemma contains_spec (sub s : string) :
  Py.contains sub s = true ↔ ∃ before after, s = before +:+ sub +:+ after.
Proof.
  split.
  - induction s as [|c s IH]; intros H.
    + rewrite contains_nil in H. apply prefix_append in H as [t Ht].
      exists "", t. done.
    + rewrite contains_cons in H. apply orb_true_iff in H as [H|H].
      * apply prefix_append in H as [t Ht]. exists "", t. done.
      * destruct (IH H) as (before & after & ->).
        exists (String c before), after. done.
  - intros (before & after & ->).
    induction before as [|c before IH].
    + assert (String.prefix sub (sub +:+ after) = true) as Hp
        by (apply prefix_append; eauto).
      change ("" +:+ sub +:+ after) with (sub +:+ after).
      destruct (sub +:+ after).
      * by rewrite contains_nil.
      * by rewrite contains_cons, Hp.
    + change (String c before +:+ sub +:+ after)
        with (String c (before +:+ sub +:+ after)).
      rewrite contains_cons, IH. apply orb_true_r.
Qed.

(** ** The schema resolver *)

(** The spec's words: [name] contains [pattern], letter case aside. *)
Definition contains_ignoring_case (pattern name : string) : Prop :=
  ∃ before after, Py.lower name = before +:+ Py.lower pattern +:+ after.

Lemma find_in_sheetnames_first (names : list string) (pattern : string) :
  match import_payroll.find_in_sheetnames names pattern with
  | Some name =>
      ∃ before after,
        names = before ++ name :: after
        ∧ contains_ignoring_case pattern name
        ∧ Forall (λ other, ¬ contains_ignoring_case pattern other) before
  | None => Forall (λ other, ¬ contains_ignoring_case pattern other) names
  end.
Proof.
  induction names as [|name names IH]; simpl; [constructor|].
  destruct (Py.contains (Py.lower pattern) (Py.lower name)) eqn:Hc.
  - exists [], names. split_and!; [done | by apply contains_spec | constructor].
  - assert (¬ contains_ignoring_case pattern name) as Hn.
    { intros H. apply contains_spec in H. congruence. }
    destruct (import_payroll.find_in_sheetnames names pattern) as [found|].
    + destruct IH as (before & after & -> & Hin & Hbefore).
      exists (name :: before), after. split_and!; [done | done | by constructor].
    + by constructor.
Qed.

(** [name] contains [pattern] with the letter case as it is written. *)
Definition contains_as_written (pattern name : string) : Prop :=
  ∃ before after, name = before +:+ pattern +:+ after.

Lemma find_sheet_first (names : list string) (pattern : string) :
  match import_fy2025_payroll.find_sheet names pattern with
  | Some name =>
      ∃ before after,
        names = before ++ name :: after
        ∧ contains_as_written pattern name
        ∧ Forall (λ other, ¬ contains_as_written pattern other) before
  | None => Forall (λ other, ¬ contains_as_written pattern other) names
  end.
Proof.
  induction names as [|name names IH]; simpl; [constructor|].
  destruct (Py.contains pattern name) eqn:Hc.
  - exists [], names. split_and!; [done | by apply contains_spec | constructor].
  - assert (¬ contains_as_written pattern name) as Hn.
    { intros H. apply contains_spec in H. congruence. }
    destruct (import_fy2025_payroll.find_sheet names pattern) as [found|].
    + destruct IH as (before & after & -> & Hin & Hbefore).
      exists (name :: before), after. split_and!; [done | done | by constructor].
    + by constructor.
Qed.

(** C5, as stated, fails on the sheet lookup of
    [import_fy2025_payroll.py]: the sheet name ["fy25 hr info"] contains the
    pattern ["HR INFO"] without regard to letter case, and the lookup
    returns the not-found signal. *)
Lemma fy2025_find_sheet_misses :
  contains_ignoring_case "HR INFO" "fy25 hr info"
  ∧ import_fy2025_payroll.find_sheet ["fy25 hr info"] "HR INFO" = None.
Proof. split; [by exists "fy25 ", "" | reflexivity]. Qed.

(** C5, amended. Given the sheets of a workbook and a pattern,
    [find_sheet_by_pattern] of [import_payroll.py] returns the first sheet
    name that contains the pattern without regard to letter case, and
    [None] (the not-found signal) exactly when no sheet name contains it.
    The lookup of [import_fy2025_payroll.py] returns the first sheet name
    that contains the pattern with the letter case as it is written, and
    [None] exactly when no sheet name does: of the name ["fy25 hr info"] and
    the pattern ["HR INFO"] the first finds the sheet and the second does
    not. *)
Theorem find_sheet_by_pattern_first_match (wb : import_payroll.workbook)
    (pattern : string) :
  match import_payroll.find_sheet_by_pattern wb pattern with
  | Some name =>
      ∃ before after,
        import_payroll.sheetnames wb = before ++ name :: after
        ∧ contains_ignoring_case pattern name
        ∧ Forall (λ other, ¬ contains_ignoring_case pattern other) before
  | None =>
      Forall (λ other, ¬ contains_ignoring_case pattern other)
             (import_payroll.sheetnames wb)
  end
  ∧ match import_fy2025_payroll.find_sheet
            (import_payroll.sheetnames wb) pattern with
    | Some name =>
        ∃ before after,
          import_payroll.sheetnames wb = before ++ name :: after
          ∧ contains_as_written pattern name
          ∧ Forall (λ other, ¬ contains_as_written pattern other) before
    | None =>
        Forall (λ other, ¬ contains_as_written pattern other)
               (import_payroll.sheetnames wb)
    end
  ∧ import_payroll.find_in_sheetnames ["Notes"; "fy25 hr info"] "HR INFO"
    = Some "fy25 hr info"
  ∧ import_fy2025_payroll.find_sheet ["Notes"; "fy25 hr info"] "HR INFO"
    = None
  ∧ import_fy2025_payroll.find_sheet ["Notes"; "FY25 HR INFO"; "HR INFO"]
      "HR INFO"
    = Some "FY25 HR INFO".
Proof.
  split_and!; [apply find_in_sheetnames_first | apply find_sheet_first | ..];
    reflexivity.
Qed.

(** ** Batches *)

Section Batches.
Context {A : Type}.
Implicit Types (records : list A) (fuel i stop step : nat).
Local Open Scope nat_scope.

Lemma range_from_lookup fuel i stop step k x :
  range_from fuel i stop step !! k = Some x → x = i + k * step.
Proof.
  revert i k. induction fuel as [|fuel IH]; intros i k; simpl; [done|].
  destruct (Nat.ltb i stop); [|done].
  destruct k as [|k]; simpl.
  - intros [= <-]. lia.
  - intros H. apply IH in H. lia.
Qed.



Lemma slices_concat records fuel i step :
  0 < step → length records - i ≤ fuel →
  concat ((λ j, slice records j (j + step))
            <$> range_from fuel i (length records) step)
  = drop i records.
Proof.
  intros Hstep. revert i. induction fuel as [|fuel IH]; intros i Hfuel; simpl.
  - rewrite drop_ge; [done | lia].
  - destruct (Nat.ltb_spec i (length records)) as [Hlt|Hge]; simpl.
    + rewrite IH by lia. unfold slice.
      replace (i + step - i) with step by lia.
      rewrite <- (take_drop step (drop i records)) at 2.
      by rewrite drop_drop.
    + rewrite drop_ge; [done | lia].
Qed.


Lemma batches_concat records step :
  0 < step → concat (batches records step) = records.
Proof.
  intros Hstep. unfold batches, range. by rewrite slices_concat by lia.
Qed.

Lemma batches_lookup records step k batch :
  batches records step !! k = Some batch →
  batch = slice records (k * step) (k * step + step) ∧ length batch ≤ step.
Proof.
  unfold batches, range. rewrite list_lookup_fmap.
  destruct (range_from _ _ _ _ !! k) as [j|] eqn:Hj; [|done].
  apply range_from_lookup in Hj as ->. intros [= <-]. split; [done|].
  unfold slice. rewrite length_take. lia.
Qed.
End Batches.

(** The payroll loader calls [insert] once on every batch it is given, in
    order, whatever the store answers, and counts as skipped the rows of
    the batches whose insert raised. *)
Lemma insert_batches_calls {St} (insert : St → list record → St * outcome)
    (bs : list (list record)) (s : load_state St) :
  ∃ cs, calls (fold_left (import_payroll.insert_batch insert) bs s)
        = calls s ++ cs
        ∧ call_batch <$> cs = bs
        ∧ Forall (λ c, is_insert c = true) cs
        ∧ skipped (fold_left (import_payroll.insert_batch insert) bs s)
          = (skipped s + failed_rows cs)%nat.
Proof.
  revert s. induction bs as [|batch bs IH]; intros s; simpl.
  - exists []. rewrite app_nil_r. unfold failed_rows. simpl.
    split_and!; [done | done | done | lia].
  - destruct (IH (import_payroll.insert_batch insert s batch))
      as (cs & -> & <- & Hcs & ->).
    unfold import_payroll.insert_batch.
    destruct (insert (store s) batch) as [st [|data]]; simpl;
      eexists (_ :: cs); rewrite <- app_assoc;
      (split_and!; [reflexivity | reflexivity | by constructor |]);
      unfold failed_rows; simpl; by rewrite ?Nat.add_assoc.
Qed.


Lemma upsert_batches_no_raise {St}
    (upsert : St → list record → St * outcome)
    (bs : list (list record)) (s : load_state St) :
  (∀ st batch, batch ∈ bs → (upsert st batch).2 ≠ Raised) →
  (import_fy2025_payroll.upsert_batches upsert bs s).2 = false.
Proof.
  revert s. induction bs as [|batch bs IH]; intros s Hbs; simpl; [done|].
  pose proof (Hbs (store s) batch ltac:(left)) as Hbatch.
  destruct (upsert (store s) batch) as [st [|data]]; simpl in *; [done|].
  apply IH. intros st' batch' Hin. apply Hbs. by right.
Qed.




(** ** The string form of a number has no white space *)

Definition chars (s : string) : list ascii := list_ascii_of_string s.

Definition sign_or_digit (c : ascii) : Prop :=
  Py.isdigit c = true ∨ c = "-"%char.

Definition no_space (s : string) : Prop :=
  Forall (λ c, Py.isspace c = false) (chars s).

Lemma chars_append (a b : string) : chars (a +:+ b) = chars a ++ chars b.
Proof. induction a as [|c a IH]; simpl; [done | by rewrite <- IH]. Qed.

Lemma sign_or_digit_no_space (c : ascii) :
  sign_or_digit c → Py.isspace c = false.
Proof.
  destruct c as [[] [] [] [] [] [] [] []]; intros [H|H];
    first [reflexivity | discriminate H].
Qed.

Lemma str_uint_digits (d : Decimal.uint) :
  Forall (λ c, Py.isdigit c = true) (chars (NilEmpty.string_of_uint d)).
Proof. induction d; simpl; constructor; done. Qed.

Lemma str_int_chars (n : Z) : Forall sign_or_digit (chars (Py.str_int n)).
Proof.
  unfold Py.str_int, NilZero.string_of_int.
  assert (∀ d, Forall sign_or_digit (chars (NilEmpty.string_of_uint d))) as Hd.
  { intros d. eapply Forall_impl; [apply str_uint_digits|]. by left. }
  assert (∀ d, Forall sign_or_digit (chars (NilZero.string_of_uint d))) as Hz.
  { intros []; try apply Hd. repeat constructor. }
  destruct (Z.to_int n) as [d|d]; [apply Hz|].
  constructor; [by right | apply Hz].
Qed.

Lemma no_space_str_int (n : Z) : no_space (Py.str_int n).
Proof.
  eapply Forall_impl; [apply str_int_chars | apply sign_or_digit_no_space].
Qed.

Lemma no_space_append (a b : string) :
  no_space a → no_space b → no_space (a +:+ b).
Proof. unfold no_space. rewrite chars_append. apply Forall_app_2. Qed.

Lemma no_space_cons (c : ascii) (s : string) :
  Py.isspace c = false → no_space s → no_space (String c s).
Proof. intros. by constructor. Qed.

Lemma no_space_substring (n m : nat) (s : string) :
  no_space s → no_space (String.substring n m s).
Proof.
  revert n m. induction s as [|c s IH]; intros n m Hs.
  - destruct n, m; constructor.
  - inversion Hs; subst. destruct n as [|n]; simpl.
    + destruct m as [|m]; [constructor|]. apply no_space_cons; [done|].
      by apply IH.
    + by apply IH.
Qed.

Lemma no_space_zeros (n : Z) : no_space (Py.zeros n).
Proof.
  unfold Py.zeros. induction (Z.to_nat n) as [|k IH]; simpl; [constructor|].
  by apply no_space_cons.
Qed.

(** A literal without white space. *)
Ltac no_space_literal :=
  unfold no_space, chars; simpl;
  repeat (constructor; [reflexivity|]); constructor.

Lemma no_space_mantissa (ds : string) :
  no_space ds →
  no_space match ds with
           | String c EmptyString => ds
           | String c rest => String c ("." +:+ rest)
           | EmptyString => ds
           end.
Proof.
  destruct ds as [|c [|c' rest]]; intros H; try done.
  inversion H; subst. apply no_space_cons; [done|].
  by apply no_space_cons.
Qed.

Lemma no_space_str_finite (m : positive) (e : Z) : no_space (Py.str_finite m e).
Proof.
  unfold Py.str_finite.
  destruct (Py.fraction m e) as [num den].
  destruct (Py.shortest_decimal _ _ _ _ _ _ _) as [d0 q0].
  destruct (Py.drop_zeros _ _ _) as [d q].
  generalize (no_space_str_int d). generalize (Py.str_int d) as ds.
  intros ds Hd.
  destruct (_ || _).
  - apply no_space_append; [by apply no_space_mantissa|].
    apply no_space_append; [no_space_literal|].
    apply no_space_append; [destruct (_ <? 0); no_space_literal|].
    destruct (Nat.ltb _ 2); [apply no_space_append; [no_space_literal|]|];
      apply no_space_str_int.
  - destruct (_ <=? 0).
    { apply no_space_append; [no_space_literal|].
      apply no_space_append; [apply no_space_zeros | done]. }
    destruct (_ <=? _).
    { apply no_space_append; [done|].
      apply no_space_append; [apply no_space_zeros | no_space_literal]. }
    apply no_space_append; [by apply no_space_substring|].
    apply no_space_append; [no_space_literal | by apply no_space_substring].
Qed.

Lemma no_space_str_number (v : value) : no_space (str_number v).
Proof.
  destruct v as [|[]|n|f|s|t]; simpl; try (repeat constructor; done).
  - apply no_space_str_int.
  - destruct f as [[]|[]| |[] m e]; try (repeat constructor; done).
    + apply no_space_cons; [done | apply no_space_str_finite].
    + apply no_space_str_finite.
Qed.

Lemma lstrip_no_space (l : list ascii) :
  Forall (λ c, Py.isspace c = false) l → Py.lstrip l = l.
Proof. destruct 1 as [|c l Hc Hl]; simpl; [done | by rewrite Hc]. Qed.

(** [s.strip()] is [s] when [s] has no white space. *)
Lemma strip_no_space (s : string) : no_space s → Py.strip s = s.
Proof.
  intros Hs. unfold no_space, chars in Hs. unfold Py.strip, Py.rstrip.
  rewrite (lstrip_no_space _ Hs).
  rewrite lstrip_no_space by (by apply Forall_rev).
  rewrite rev_involutive. apply string_of_list_ascii_of_string.
Qed.

(** ** The text normalizer on numbers *)

(** C9. On a number, [parse_text] returns [None] when the number is zero
    ([False], [0], [0.0] or [-0.0]) and the string form of the number
    otherwise; the cell value [0] normalizes to [None], where the text
    ["0"] stays ["0"]. *)
Theorem parse_text_number :
  (∀ b : bool, import_payroll.parse_text (VBool b)
               = Ret (if b then Some (str_number (VBool b)) else None))
  ∧ (∀ n : Z, import_payroll.parse_text (VInt n)
              = Ret (if n =? 0 then None else Some (Py.str_int n)))
  ∧ (∀ f : spec_float,
       import_payroll.parse_text (VFloat f)
       = Ret (match f with
              | S754_zero _ => None
              | _ => Some (Py.str_float f)
              end))
  ∧ import_payroll.parse_text (VInt 0) = Ret None
  ∧ import_payroll.parse_text (VFloat (S754_zero false)) = Ret None
  ∧ import_payroll.parse_text (VStr "0") = Ret (Some "0").
Proof.
  split_and!; try reflexivity.
  - intros []; reflexivity.
  - intros n. unfold import_payroll.parse_text. simpl.
    rewrite (strip_no_space _ (no_space_str_int n)). by destruct (n =? 0).
  - intros f. unfold import_payroll.parse_text.
    rewrite (strip_no_space _ (no_space_str_number (VFloat f))).
    by destruct f.
Qed.

(** ** The normalizers and exceptions *)

(** [parse_text] has no call that raises. *)
Lemma parse_text_returns (v : value) : returns (import_payroll.parse_text v).
Proof. destruct v; eexists; reflexivity. Qed.

(** C7. The normalizers are not total: [except (ValueError, TypeError)]
    leaves the [OverflowError] of [int] on an infinite float and of [float]
    on a large [int], and the number branch of [parse_last_hire_date] has no
    handler at all.  The text ["inf"] in an integer column makes
    [parse_integer] raise, and the row it stands in is lost. *)
Theorem normalizers_raise :
  import_payroll.parse_integer (VStr "inf") = Raise OverflowError
  ∧ import_payroll.parse_integer (VFloat (S754_infinity false))
    = Raise OverflowError
  ∧ import_payroll.parse_float (VInt (2 ^ 1024)) = Raise OverflowError
  ∧ import_payroll.parse_last_hire_date (VStr "inf") = Raise OverflowError
  ∧ import_payroll.parse_last_hire_date (VFloat S754_nan) = Raise ValueError
  ∧ import_payroll.parse_hr_row
      [VStr "A1"; VStr "inf"] [VStr "TEMPORARY_ID"; VStr "RECORD_NBR"] None
    = None.
Proof. split_and!; vm_compute; reflexivity. Qed.

(** ** The hire-date normalizer *)

Lemma str_int_not_nan (n : Z) : Py.str_int n ≠ "nan".
Proof.
  intros H. pose proof (str_int_chars n) as Hc. rewrite H in Hc.
  inversion Hc as [|c l [Hd|Hs] _]; subst; discriminate.
Qed.

(** C10, as stated, fails: the text ["nan"] is not blank, is not a dash and
    parses as a float, and it is returned as it is, not as the decimal
    string of an integer. *)
Lemma parse_last_hire_date_nan_verbatim :
  ∃ s f,
    blank_or_dash (Py.strip s) = false
    ∧ Py.float_of_str (Py.strip s) = Ret f
    ∧ import_payroll.parse_last_hire_date (VStr s) = Ret (Some s)
    ∧ ¬ ∃ n, import_payroll.parse_last_hire_date (VStr s)
             = Ret (Some (Py.str_int n)).
Proof.
  exists "nan", S754_nan. split_and!; try reflexivity.
  intros [n Hn]. vm_compute in Hn.
  injection Hn as Hn. by apply (str_int_not_nan n).
Qed.

(** C10, amended. On a [bool], an [int] and a finite [float], and on a text
    that is not blank, not a dash and parses as a finite number,
    [parse_last_hire_date] returns the decimal string of the value truncated
    to an integer; a text that does not parse as a number, or that parses
    as NaN, is returned as it is after trimming. *)
Theorem parse_last_hire_date_truncates :
  (∀ b : bool, import_payroll.parse_last_hire_date (VBool b)
               = Ret (Some (Py.str_int (Z.b2z b))))
  ∧ (∀ n : Z, import_payroll.parse_last_hire_date (VInt n)
              = Ret (Some (Py.str_int n)))
  ∧ (∀ f, Py.is_finite f = true →
          import_payroll.parse_last_hire_date (VFloat f)
          = Ret (Some (Py.str_int (Py.trunc f))))
  ∧ (∀ s f, blank_or_dash (Py.strip s) = false →
            Py.float_of_str (Py.strip s) = Ret f →
            Py.is_finite f = true →
            import_payroll.parse_last_hire_date (VStr s)
            = Ret (Some (Py.str_int (Py.trunc f))))
  ∧ (∀ s, blank_or_dash (Py.strip s) = false →
          Py.float_of_str (Py.strip s) = Raise ValueError
          ∨ Py.float_of_str (Py.strip s) = Ret S754_nan →
          import_payroll.parse_last_hire_date (VStr s)
          = Ret (Some (Py.strip s)))
  ∧ import_payroll.parse_last_hire_date
      (VFloat (S754_finite false 6047313952768000 (-37)))
    = Ret (Some "44000")
  ∧ import_payroll.parse_last_hire_date (VStr "123.9") = Ret (Some "123").
Proof.
  split_and!; try reflexivity.
  - intros f Hf. by destruct f.
  - intros s f Hb Hs Hf. unfold import_payroll.parse_last_hire_date.
    rewrite Hb, Hs. by destruct f.
  - intros s Hb Hs. unfold import_payroll.parse_last_hire_date.
    assert (String.eqb (Py.strip s) "" = false) as Hne.
    { unfold blank_or_dash in Hb. by apply orb_false_iff in Hb as [-> _]. }
    rewrite Hb. destruct Hs as [-> | ->]; simpl; by rewrite Hne.
Qed.

(** The amended C10 at the text [" 123.9 "]. *)
Lemma parse_last_hire_date_truncates_witness :
  blank_or_dash (Py.strip " 123.9 ") = false
  ∧ import_payroll.parse_last_hire_date (VStr " 123.9 ") = Ret (Some "123").
Proof.
  split; [reflexivity|].
  destruct parse_last_hire_date_truncates as (_ & _ & _ & H & _).
  apply (H " 123.9 " (S754_finite false 8718687403612570 (-46)));
    reflexivity.
Defined.

(** ** The wage normalizer *)

(** The characters of a decimal literal. *)
Definition literal_char (c : ascii) : Prop :=
  Py.isdigit c = true ∨ c ∈ ["."; "e"; "E"; "+"; "-"]%char.

Lemma comma_not_literal : ¬ literal_char ","%char.
Proof.
  intros [H|H]; [discriminate|].
  repeat (apply elem_of_cons in H as [H|H]; [discriminate|]).
  by apply elem_of_nil in H.
Qed.

Lemma span_digits_spec (s ds r : list ascii) :
  Py.span_digits s = (ds, r) →
  s = ds ++ r ∧ Forall (λ c, Py.isdigit c = true) ds.
Proof.
  revert ds r. induction s as [|c s IH]; intros ds r; simpl.
  - intros [= <- <-]. by split.
  - destruct (Py.isdigit c) eqn:Hc.
    + destruct (Py.span_digits s) as [ds' r'].
      intros [= <- <-]. destruct (IH ds' r' eq_refl) as [-> Hds].
      split; [done | by constructor].
    + intros [= <- <-]. by split.
Qed.

Lemma digits_literal (ds : list ascii) :
  Forall (λ c, Py.isdigit c = true) ds → Forall literal_char ds.
Proof. intros H. eapply Forall_impl; [exact H|]. by left. Qed.

Lemma split_sign_spec (s body : list ascii) (neg : bool) :
  Py.split_sign s = (neg, body) →
  s = body ∨ ∃ c, (c = "+" ∨ c = "-")%char ∧ s = c :: body.
Proof.
  destruct s as [|c s]; simpl; [intros [= <- <-]; by left|].
  destruct (Ascii.eqb_spec c "-") as [->|_].
  { intros [= <- <-]. right. eexists. eauto. }
  destruct (Ascii.eqb_spec c "+") as [->|_]; intros [= <- <-].
  - right. eexists. eauto.
  - by left.
Qed.

Lemma parse_exponent_chars (s : list ascii) (z : Z) :
  Py.parse_exponent s = Some z → Forall literal_char s.
Proof.
  destruct s as [|c s]; simpl; [constructor|].
  destruct (_ || _) eqn:He; [|done].
  destruct (Py.split_sign s) as [neg r] eqn:Hsign.
  destruct (Py.span_digits r) as [ds rest] eqn:Hspan.
  destruct ds as [|d ds]; [done|]. destruct rest; [|done]. intros _.
  apply span_digits_spec in Hspan as [-> Hds]. rewrite app_nil_r in Hsign.
  constructor.
  - right. apply orb_true_iff in He as [He|He];
      apply Ascii.eqb_eq in He as ->; set_solver.
  - apply split_sign_spec in Hsign as [->|(c' & Hc' & ->)].
    + by apply digits_literal.
    + constructor; [|by apply digits_literal].
      right. destruct Hc' as [-> | ->]; set_solver.
Qed.

Lemma parse_decimal_literal_chars (s : list ascii) (p : Z * Z) :
  Py.parse_decimal_literal s = Some p → Forall literal_char s.
Proof.
  unfold Py.parse_decimal_literal.
  destruct (Py.span_digits s) as [ip r1] eqn:Hip.
  apply span_digits_spec in Hip as [-> Hip].
  assert (∀ fp r2,
    match ip ++ fp with
    | [] => None
    | (_ :: _) as ds =>
        ex ← Py.parse_exponent r2;
        Some (Py.digits_value ds, ex - Z.of_nat (length fp))
    end = Some p → Forall literal_char r2) as Hexp.
  { intros fp r2. destruct (ip ++ fp); [done|].
    destruct (Py.parse_exponent r2) eqn:He; [|done].
    intros _. by eapply parse_exponent_chars. }
  destruct r1 as [|c r].
  - intros _. rewrite app_nil_r. by apply digits_literal.
  - destruct (Ascii.eqb_spec c ".") as [->|_].
    + destruct (Py.span_digits r) as [fp r2] eqn:Hfp.
      apply span_digits_spec in Hfp as [-> Hfp]. intros H.
      apply Hexp in H. apply Forall_app. split; [by apply digits_literal|].
      constructor; [right; set_solver|].
      apply Forall_app. split; [by apply digits_literal | done].
    + intros H. apply Hexp in H. apply Forall_app.
      split; [by apply digits_literal | done].
Qed.

Lemma drop_underscores_keeps (c prev : ascii) (s t : list ascii) :
  c ≠ "_"%char → c ∈ s → Py.drop_underscores prev s = Some t → c ∈ t.
Proof.
  intros Hc. revert prev t. induction s as [|c' s IH]; intros prev t Hin.
  { by apply elem_of_nil in Hin. }
  simpl. destruct (Ascii.eqb_spec c' "_") as [->|Hne].
  - apply elem_of_cons in Hin as [->|Hin]; [done|].
    destruct (Py.isdigit prev); [|done]. by apply IH.
  - destruct (_ && _); [done|].
    destruct (Py.drop_underscores c' s) as [t'|] eqn:Ht; [|done].
    intros [= <-]. apply elem_of_cons in Hin as [->|Hin]; [left|right].
    by eapply IH.
Qed.

Lemma lstrip_keeps (c : ascii) (l : list ascii) :
  Py.isspace c = false → c ∈ l → c ∈ Py.lstrip l.
Proof.
  intros Hc. induction l as [|c' l IH]; [done|]. simpl.
  destruct (Py.isspace c') eqn:Hc'; [|done].
  intros [->|Hin]%elem_of_cons; [congruence | by apply IH].
Qed.

Lemma elem_of_rev {A} (x : A) (l : list A) : x ∈ l → x ∈ rev l.
Proof. rewrite !list_elem_of_In. apply in_rev. Qed.

Lemma strip_keeps (c : ascii) (s : string) :
  Py.isspace c = false → c ∈ chars s → c ∈ chars (Py.strip s).
Proof.
  intros Hc Hin. unfold chars, Py.strip, Py.rstrip.
  rewrite list_ascii_of_string_of_list_ascii.
  apply elem_of_rev, lstrip_keeps, elem_of_rev, lstrip_keeps; done.
Qed.

Lemma lower_keeps_comma (s : string) :
  ","%char ∈ chars s → ","%char ∈ chars (Py.lower s).
Proof.
  induction s as [|c s IH]; [done|]. simpl.
  intros [<-|Hin]%elem_of_cons; [left | right; by apply IH].
Qed.

Lemma parse_inf_nan_comma (neg : bool) (body : list ascii) :
  ","%char ∈ body → Py.parse_inf_nan neg body = None.
Proof.
  intros Hin. unfold Py.parse_inf_nan.
  assert (","%char ∈ chars (Py.lower (string_of_list_ascii body))) as Hw.
  { apply lower_keeps_comma. unfold chars.
    by rewrite list_ascii_of_string_of_list_ascii. }
  assert (∀ w, ","%char ∈ chars w →
               String.eqb w "inf" || String.eqb w "infinity" = false
               ∧ String.eqb w "nan" = false) as Hne.
  { intros w Hc. split; [apply orb_false_iff; split|];
      apply String.eqb_neq; intros ->;
      repeat (apply elem_of_cons in Hc as [Hc|Hc]; [discriminate|]);
      by apply elem_of_nil in Hc. }
  destruct (Hne _ Hw) as [-> ->]. done.
Qed.

(** A text with a comma is not a float literal. *)
Lemma float_of_str_comma (s : string) :
  ","%char ∈ chars s → Py.float_of_str s = Raise ValueError.
Proof.
  intros Hin. apply (strip_keeps ","%char s eq_refl) in Hin.
  unfold Py.float_of_str.
  destruct (Py.drop_underscores _ _) as [t|] eqn:Ht; [|done].
  apply (drop_underscores_keeps ","%char) in Ht; [|done|done].
  destruct (Py.split_sign t) as [neg body] eqn:Hsign.
  assert (","%char ∈ body) as Hbody.
  { apply split_sign_spec in Hsign as [->|(c & Hc & ->)]; [done|].
    apply elem_of_cons in Ht as [Heq|Ht]; [|done].
    destruct Hc as [-> | ->]; discriminate Heq. }
  destruct (Py.parse_decimal_literal body) as [[d k]|] eqn:Hp.
  { apply parse_decimal_literal_chars in Hp.
    rewrite Forall_forall in Hp. by destruct (comma_not_literal (Hp _ Hbody)). }
  by rewrite parse_inf_nan_comma.
Qed.

(** C4, as stated, fails: the wage normalizer does not strip thousands
    separators; [" 1,234.50 "] normalizes to [0.0], not to the [1234.5] that
    ["1234.50"] reads as. *)
Lemma parse_wage_keeps_separators :
  ∃ f, Py.float_of_str "1234.50" = Ret f
       ∧ import_payroll.parse_wage (VStr " 1,234.50 ") = Ret Py.zero
       ∧ Py.zero ≠ f.
Proof. eexists. split_and!; [vm_compute; reflexivity | reflexivity | done]. Qed.

(** C4, amended. The wage normalizer [parse_float(...) or 0.0] of the
    payroll import maps [None], a blank or white-space-only text, the dash
    and any text that is not a float literal to [0.0]; a text with a
    thousands separator is such a text, so [" 1,234.50 "] gives [0.0] and
    [" 1234.50 "] gives [1234.5].  The decimal normalizer [parse_decimal] of
    the budget import is the one that strips the separators:
    [parse_decimal(" 1,234.50 ") = 1234.5], with [0.0] for [None], a blank
    text, the dash and what does not parse. *)
Theorem parse_wage_defaults :
  import_payroll.parse_wage VNone = Ret Py.zero
  ∧ (∀ s, blank_or_dash (Py.strip s) = true →
          import_payroll.parse_wage (VStr s) = Ret Py.zero)
  ∧ (∀ s, Py.float_of_str (Py.strip s) = Raise ValueError →
          import_payroll.parse_wage (VStr s) = Ret Py.zero)
  ∧ (∀ s, ","%char ∈ chars s →
          import_payroll.parse_wage (VStr s) = Ret Py.zero)
  ∧ import_payroll.parse_wage (VStr "") = Ret Py.zero
  ∧ import_payroll.parse_wage (VStr "   ") = Ret Py.zero
  ∧ import_payroll.parse_wage (VStr "-") = Ret Py.zero
  ∧ import_payroll.parse_wage (VStr " 1,234.50 ") = Ret Py.zero
  ∧ import_payroll.parse_wage (VStr " 1234.50 ")
    = Ret (S754_finite false 5429388417957888 (-42))
  ∧ import_budgets.parse_decimal None = Ret Py.zero
  ∧ (∀ s, Py.strip s = "" →
          import_budgets.parse_decimal (Some s) = Ret Py.zero)
  ∧ (∀ s, Py.float_of_str (import_budgets.remove_commas (Py.strip s))
          = Raise ValueError →
          import_budgets.parse_decimal (Some s) = Ret Py.zero)
  ∧ import_budgets.parse_decimal (Some "-") = Ret Py.zero
  ∧ import_budgets.parse_decimal (Some " 1,234.50 ")
    = Ret (S754_finite false 5429388417957888 (-42)).
Proof.
  assert (∀ s, Py.float_of_str (Py.strip s) = Raise ValueError →
               import_payroll.parse_wage (VStr s) = Ret Py.zero) as Hraise.
  { intros s Hs. unfold import_payroll.parse_wage, import_payroll.parse_float.
    rewrite Hs. by destruct (blank_or_dash _). }
  split_and!.
  - reflexivity.
  - intros s Hb. unfold import_payroll.parse_wage, import_payroll.parse_float.
    by rewrite Hb.
  - exact Hraise.
  - intros s Hin. apply Hraise, float_of_str_comma.
    by apply strip_keeps.
  - reflexivity.
  - reflexivity.
  - reflexivity.
  - vm_compute; reflexivity.
  - vm_compute; reflexivity.
  - reflexivity.
  - intros s Hs. unfold import_budgets.parse_decimal. rewrite Hs.
    by rewrite orb_true_r.
  - intros s Hs. unfold import_budgets.parse_decimal. rewrite Hs.
    by destruct (_ || _).
  - vm_compute; reflexivity.
  - vm_compute; reflexivity.
Qed.

(** The amended C4 at the text [" 1,234.50 "]. *)
Lemma parse_wage_defaults_witness :
  ","%char ∈ chars " 1,234.50 "
  ∧ import_payroll.parse_wage (VStr " 1,234.50 ") = Ret Py.zero.
Proof.
  assert (","%char ∈ chars " 1,234.50 ") as Hin.
  { unfold chars. simpl. do 2 right. left. }
  split; [exact Hin|].
  destruct parse_wage_defaults as (_ & _ & _ & H & _). by apply H.
Defined.


(** ** The loaders when the store fails *)

Section Runs.
Context {St : Type}.
Variables upsert insert : St → list record → St * outcome.

(** The calls the budget loader makes from the store [st] on a list of
    batches, and whether the exception of a fallback insert left the loop:
    an upsert that returns is the only call on its batch; an upsert that
    raises is followed by one insert of the same batch; when that insert
    raises too, the batches after it get no call. *)
Inductive budget_run : St → list (list record) → list call → bool → Prop :=
| budget_done st :
    budget_run st [] [] false
| budget_upserted st st1 data batch rest cs raised :
    upsert st batch = (st1, Data data) →
    budget_run st1 rest cs raised →
    budget_run st (batch :: rest) (Upsert batch true :: cs) raised
| budget_fallback st st1 st2 data batch rest cs raised :
    upsert st batch = (st1, Raised) →
    insert st1 batch = (st2, Data data) →
    budget_run st2 rest cs raised →
    budget_run st (batch :: rest)
               (Upsert batch false :: Insert batch true :: cs) raised
| budget_reraised st st1 st2 batch rest :
    upsert st batch = (st1, Raised) →
    insert st1 batch = (st2, Raised) →
    budget_run st (batch :: rest)
               [Upsert batch false; Insert batch false] true.

(** The calls the payroll loader makes: one insert on every batch, whether
    it returns or raises. *)
Inductive payroll_run : St → list (list record) → list call → Prop :=
| payroll_done st :
    payroll_run st [] []
| payroll_inserted st st1 data batch rest cs :
    insert st batch = (st1, Data data) →
    payroll_run st1 rest cs →
    payroll_run st (batch :: rest) (Insert batch true :: cs)
| payroll_skipped st st1 batch rest cs :
    insert st batch = (st1, Raised) →
    payroll_run st1 rest cs →
    payroll_run st (batch :: rest) (Insert batch false :: cs).

Lemma load_batches_run (bs : list (list record)) (s : load_state St) :
  ∃ cs, calls (import_budgets.load_batches upsert insert bs s).1
        = calls s ++ cs
        ∧ budget_run (store s) bs cs
                     (import_budgets.load_batches upsert insert bs s).2
        ∧ skipped (import_budgets.load_batches upsert insert bs s).1
          = skipped s.
Proof.
  revert s. induction bs as [|batch bs IH]; intros s; simpl.
  - exists []. rewrite app_nil_r. split_and!; [done | constructor | done].
  - destruct (upsert (store s) batch) as [st1 [|data1]] eqn:Hu.
    + destruct (insert st1 batch) as [st2 [|data2]] eqn:Hi; simpl.
      * eexists. split_and!; [reflexivity | by econstructor | done].
      * edestruct IH as (cs & -> & Hcs & ->). simpl in *.
        eexists (_ :: _ :: cs). rewrite <- app_assoc.
        split_and!; [reflexivity | by econstructor | done].
    + edestruct IH as (cs & -> & Hcs & ->). simpl in *.
      eexists (_ :: cs). rewrite <- app_assoc.
      split_and!; [reflexivity | by econstructor | done].
Qed.

Lemma insert_batches_run (bs : list (list record)) (s : load_state St) :
  ∃ cs, calls (fold_left (import_payroll.insert_batch insert) bs s)
        = calls s ++ cs
        ∧ payroll_run (store s) bs cs.
Proof.
  revert s. induction bs as [|batch bs IH]; intros s; simpl.
  - exists []. rewrite app_nil_r. split; [done | constructor].
  - destruct (IH (import_payroll.insert_batch insert s batch))
      as (cs & -> & Hcs).
    unfold import_payroll.insert_batch in *.
    destruct (insert (store s) batch) as [st [|data]] eqn:Hi; simpl in *;
      eexists (_ :: cs); rewrite <- app_assoc;
      (split; [reflexivity | by econstructor]).
Qed.

End Runs.

(** C3, as stated, fails on both loaders. In the scenario (batch size 2,
    five records, every call on the third batch raises) the budget loader,
    which has the fallback insert, reports [(0, 0)] and not [(4, 1)]; the
    payroll loader, which goes on after a failure, makes one insert on the
    third batch and no fallback call. *)
Lemma loaders_scenario_fallback :
  let budget :=
    import_budgets.load_with scenario_store scenario_store 2 tt
                             scenario_records 0 in
  let payroll := import_payroll.load scenario_store 2 tt scenario_records in
  (total_inserted budget, skipped budget) = (0%nat, 0%nat)
  ∧ (total_inserted budget, skipped budget) ≠ (4%nat, 1%nat)
  ∧ calls budget
    = [ Upsert (slice scenario_records 0 2) true;
        Upsert (slice scenario_records 2 4) true;
        Upsert (slice scenario_records 4 6) false;
        Insert (slice scenario_records 4 6) false ]
  ∧ calls payroll
    = [ Insert (slice scenario_records 0 2) true;
        Insert (slice scenario_records 2 4) true;
        Insert (slice scenario_records 4 6) false ].
Proof.
  split_and!; [reflexivity | discriminate | reflexivity | reflexivity].
Qed.

(** C3, amended. The budget loader upserts each batch; when the upsert
    raises it attempts one plain insert of the same batch, and when that
    raises too the exception leaves the loop: no later batch is attempted and
    the result is [(0, skipped)].  The payroll loader inserts each batch
    once, with no upsert and no fallback; the rows of a batch whose insert
    raises are counted as skipped and the next batch is processed.  In the
    scenario the payroll loader reports [(4, 1)]. *)
Theorem loaders_on_store_failure :
  (∀ St (upsert insert : St → list record → St * outcome) (st : St)
     (records : list record) (batch_size skipped0 : nat),
     let run :=
       import_budgets.load_with upsert insert batch_size st records skipped0 in
     ∃ raised,
       budget_run upsert insert st (batches records batch_size) (calls run)
                  raised
       ∧ skipped run = skipped0
       ∧ (raised = true → total_inserted run = 0%nat))
  ∧ (∀ St (insert : St → list record → St * outcome) (st : St)
       (records : list record) (batch_size : nat),
       let run := import_payroll.load insert batch_size st records in
       payroll_run insert st (batches records batch_size) (calls run)
       ∧ skipped run = failed_rows (calls run))
  ∧ (let run := import_payroll.load scenario_store 2 tt scenario_records in
     (total_inserted run, skipped run) = (4%nat, 1%nat)).
Proof.
  split_and!.
  - intros St upsert insert st records batch_size skipped0 run. subst run.
    unfold import_budgets.load_with. destruct records as [|r records].
    { exists false. simpl. split_and!; [constructor | done | done]. }
    set (s0 := {| store := st; total_inserted := 0; skipped := skipped0;
                  calls := [] |}).
    destruct (load_batches_run upsert insert
                (batches (r :: records) batch_size) s0) as (cs & Hc & Hb & Hs).
    destruct (import_budgets.load_batches _ _ _ _) as [s raised].
    simpl in *. subst cs. exists raised. destruct raised; simpl; done.
  - intros St insert st records batch_size run. subst run.
    destruct (insert_batches_calls insert (batches records batch_size)
                (import_payroll.start st)) as (cs & Hcalls & _ & _ & Hs).
    destruct (insert_batches_run insert (batches records batch_size)
                (import_payroll.start st)) as (cs' & Hcalls' & Hrun).
    unfold import_payroll.load. rewrite Hs. rewrite Hcalls in *. simpl in *.
    subst cs'. done.
  - reflexivity.
Qed.

(** ** The record join *)

Lemma dict_set_keys {V} (k : string) (v : V) (d : list (string * V)) :
  (import_payroll.dict_set k v d).*1 = if bool_decide (k ∈ d.*1) then d.*1 else d.*1 ++ [k].
Proof.
  induction d as [|[k' v'] d IH]; csimpl; [done|].
  destruct (String.eqb_spec k' k) as [->|Hne]; csimpl.
  - rewrite bool_decide_eq_true_2; [done | by left].
  - rewrite IH. destruct (bool_decide (k ∈ d.*1)) eqn:Hk.
    + apply bool_decide_eq_true in Hk.
      rewrite bool_decide_eq_true_2; [done | by right].
    + apply bool_decide_eq_false in Hk.
      rewrite bool_decide_eq_false_2; [done|].
      intros [->|?]%elem_of_cons; done.
Qed.

Lemma dict_set_NoDup {V} (k : string) (v : V) (d : list (string * V)) :
  NoDup d.*1 → NoDup (import_payroll.dict_set k v d).*1.
Proof.
  intros Hd. rewrite dict_set_keys. case_bool_decide as Hk; [done|].
  apply NoDup_app. split_and!; [done | | apply NoDup_singleton].
  intros x Hx [->|[]%elem_of_nil]%elem_of_cons. done.
Qed.

Lemma dict_set_elem_of {V} (k : string) (v : V) (d : list (string * V))
    (entry : string * V) :
  entry ∈ import_payroll.dict_set k v d → entry = (k, v) ∨ entry ∈ d.
Proof.
  induction d as [|[k' v'] d IH]; simpl.
  - intros [->|[]%elem_of_nil]%elem_of_cons. by left.
  - destruct (String.eqb k' k).
    + intros [->|?]%elem_of_cons; [by left | right; by right].
    + intros [->|H]%elem_of_cons; [right; by left|].
      destruct (IH H) as [->|?]; [by left | right; by right].
Qed.

(** Every entry of [hr_data] is filed under the identifier of its record,
    and no identifier has two entries. *)
Lemma read_hr_entries (hr_sheet : import_payroll.sheet)
    (active_col_name : option string) :
  NoDup (import_payroll.read_hr hr_sheet active_col_name).*1
  ∧ ∀ entry, entry ∈ import_payroll.read_hr hr_sheet active_col_name →
             import_payroll.row_id (Some entry.2) = Some entry.1.
Proof.
  unfold import_payroll.read_hr.
  assert (∀ rs d,
    (NoDup d.*1
     ∧ ∀ entry, entry ∈ d →
                import_payroll.row_id (Some entry.2) = Some entry.1) →
    let d' := fold_left (import_payroll.add_hr_row
                           (import_payroll.header hr_sheet) active_col_name)
                        rs d in
    NoDup d'.*1
    ∧ ∀ entry, entry ∈ d' →
               import_payroll.row_id (Some entry.2) = Some entry.1) as Hfold.
  { induction rs as [|row rs IH]; intros d Hd; simpl; [done|].
    apply IH. unfold import_payroll.add_hr_row.
    destruct (import_payroll.parse_hr_row _ _ _) as [parsed|]; [|done].
    destruct (import_payroll.row_id (Some parsed)) as [k|] eqn:Hk; [|done].
    destruct Hd as [Hnd Hent]. split; [by apply dict_set_NoDup|].
    intros entry [->|?]%dict_set_elem_of; [done | by apply Hent]. }
  apply Hfold. split; [constructor|]. by intros entry ?%elem_of_nil.
Qed.

(** A row that is not filed leaves the lookup as it is; the last row
    filed under an identifier is the one found there. *)
Lemma read_earnings_later (headers : list value) (k : string)
    (later : list (list value)) (earnings_data : gmap string record) :
  Forall (λ row,
            import_payroll.row_id (import_payroll.parse_earnings_row row headers)
            ≠ Some k) later →
  fold_left (import_payroll.add_earnings_row headers) later earnings_data !! k
  = earnings_data !! k.
Proof.
  revert earnings_data. induction later as [|row later IH];
    intros earnings_data Hlater; simpl; [done|].
  inversion Hlater as [|? ? Hrow Hrest]; subst. rewrite IH by done.
  unfold import_payroll.add_earnings_row.
  destruct (import_payroll.parse_earnings_row row headers) as [parsed|];
    [|done].
  destruct (import_payroll.row_id (Some parsed)) as [k'|] eqn:Hk'; [|done].
  apply lookup_insert_ne. congruence.
Qed.

Lemma read_earnings_last (earnings_sheet : import_payroll.sheet)
    (before after : list (list value)) (row : list value)
    (parsed : record) (k : string) :
  import_payroll.rows earnings_sheet = before ++ row :: after →
  import_payroll.parse_earnings_row row (import_payroll.header earnings_sheet)
  = Some parsed →
  import_payroll.row_id (Some parsed) = Some k →
  Forall (λ later,
            import_payroll.row_id
              (import_payroll.parse_earnings_row
                 later (import_payroll.header earnings_sheet))
            ≠ Some k) after →
  import_payroll.read_earnings earnings_sheet !! k = Some parsed.
Proof.
  intros Hrows Hparsed Hk Hafter. unfold import_payroll.read_earnings.
  rewrite Hrows, fold_left_app. simpl.
  rewrite read_earnings_later by done.
  unfold import_payroll.add_earnings_row at 1. rewrite Hparsed, Hk.
  apply lookup_insert_eq.
Qed.

Lemma combine_lookup_other (fiscal_year : Z)
    (earnings_data : gmap string record) (entry : string * record)
    (field : string) :
  field ∉ ["fiscal_year"; "regular_wages"; "overtime_wages"; "other_wages";
           "total_wages"] →
  import_payroll.combine fiscal_year earnings_data entry !! field
  = entry.2 !! field.
Proof.
  intros Hf. unfold import_payroll.combine.
  rewrite !lookup_insert_ne; [done|..]; intros <-; apply Hf; set_solver.
Qed.

Lemma combine_lookup_wage (fiscal_year : Z)
    (earnings_data : gmap string record) (entry : string * record)
    (field : string) :
  field ∈ ["regular_wages"; "overtime_wages"; "other_wages"; "total_wages"] →
  import_payroll.combine fiscal_year earnings_data entry !! field
  = Some (import_payroll.wage_field
            (default ∅ (earnings_data !! entry.1)) field).
Proof.
  intros Hf. unfold import_payroll.combine.
  repeat (apply elem_of_cons in Hf as [->|Hf];
          [by rewrite ?lookup_insert_ne, lookup_insert_eq by done|]).
  by apply elem_of_nil in Hf.
Qed.

Lemma combine_lookup_fiscal_year (fiscal_year : Z)
    (earnings_data : gmap string record) (entry : string * record) :
  import_payroll.combine fiscal_year earnings_data entry !! "fiscal_year"
  = Some (VStr (Py.str_int fiscal_year)).
Proof.
  unfold import_payroll.combine.
  by rewrite !lookup_insert_ne, lookup_insert_eq by done.
Qed.

Lemma parse_columns_is_Some (columns : list (string * import_payroll.kind * string))
    (data : list (value * value)) (acc parsed : record) (field : string) :
  import_payroll.parse_columns columns data acc = Ret parsed →
  is_Some (acc !! field) ∨ field ∈ (columns.*1).*1 →
  is_Some (parsed !! field).
Proof.
  revert acc. induction columns as [|[[f k] column] columns IH];
    intros acc; simpl.
  - intros [= <-] [?|[]%elem_of_nil]. done.
  - destruct (import_payroll.normalize k _) as [v|e]; [|done]. simpl.
    intros Hp Hf. apply (IH _ Hp).
    destruct (decide (f = field)) as [->|Hne].
    + left. rewrite lookup_insert_eq. by eexists.
    + rewrite lookup_insert_ne by done.
      destruct Hf as [?|[?|?]%elem_of_cons]; [by left | congruence | by right].
Qed.

Local Arguments import_payroll.parse_columns : simpl never.

(** A parsed earnings row has its four wage fields. *)
Lemma parse_earnings_row_wages (row headers : list value) (parsed : record)
    (field : string) :
  import_payroll.parse_earnings_row row headers = Some parsed →
  field ∈ ["regular_wages"; "overtime_wages"; "other_wages"; "total_wages"] →
  is_Some (parsed !! field).
Proof.
  unfold import_payroll.parse_earnings_row. intros Hp Hf.
  destruct (import_payroll.parse_text _) as [t|]; [|done]. simpl in Hp.
  destruct (import_payroll.truthy_text t) as [temporary_id|]; [|done].
  destruct (import_payroll.parse_columns _ _ _) as [p|] eqn:Hcols; [|done].
  simpl in Hp. injection Hp as <-.
  eapply parse_columns_is_Some; [exact Hcols|]. by right.
Qed.

Lemma row_id_Some (parsed : record) (k : string) :
  import_payroll.row_id (Some parsed) = Some k ↔
  parsed !! "temporary_id" = Some (VStr k) ∧ k ≠ "".
Proof.
  unfold import_payroll.row_id.
  destruct (parsed !! "temporary_id") as [[| | | |s|]|];
    try (split; [done | by intros [? ?]]).
  destruct (String.eqb_spec s ""); split.
  - done.
  - intros [[= ->] ?]. done.
  - intros [= ->]. done.
  - intros [[= ->] ?]. done.
Qed.

(** In [import_payroll_file] the later row overwrites the earlier one in
    the lookup: a combined record takes its four wage fields from the last
    earnings row filed under its identifier. *)
Lemma payroll_last_detail_wins (fiscal_year : Z)
    (hr_sheet earnings_sheet : import_payroll.sheet)
    (active_col_name : option string) (before after : list (list value))
    (row : list value) (parsed combined : record) (temporary_id field : string) :
  combined ∈ import_payroll.join fiscal_year
               (import_payroll.read_hr hr_sheet active_col_name)
               (import_payroll.read_earnings earnings_sheet) →
  combined !! "temporary_id" = Some (VStr temporary_id) →
  import_payroll.rows earnings_sheet = before ++ row :: after →
  import_payroll.parse_earnings_row row (import_payroll.header earnings_sheet)
  = Some parsed →
  parsed !! "temporary_id" = Some (VStr temporary_id) →
  Forall (λ later,
            import_payroll.row_id
              (import_payroll.parse_earnings_row
                 later (import_payroll.header earnings_sheet))
            ≠ Some temporary_id) after →
  field ∈ ["regular_wages"; "overtime_wages"; "other_wages"; "total_wages"] →
  is_Some (parsed !! field) ∧ combined !! field = parsed !! field.
Proof.
  intros Hin Hid Hrows Hparsed Hpid Hafter Hfield.
  apply list_elem_of_fmap in Hin as (entry & -> & Hentry).
  destruct (read_hr_entries hr_sheet active_col_name) as [_ Hfiled].
  apply Hfiled, row_id_Some in Hentry as [Hkey Hne].
  rewrite combine_lookup_other in Hid by compute_done.
  assert (entry.1 = temporary_id) as Hk by congruence.
  assert (import_payroll.row_id (Some parsed) = Some temporary_id) as Hrow.
  { apply row_id_Some. split; [done | congruence]. }
  pose proof (parse_earnings_row_wages _ _ _ field Hparsed Hfield) as [v Hv].
  split; [by eexists|].
  rewrite combine_lookup_wage by done. rewrite Hk.
  rewrite (read_earnings_last _ _ _ _ _ _ Hrows Hparsed Hrow Hafter). simpl.
  unfold import_payroll.wage_field. by rewrite Hv.
Qed.

(** *** The join of the FY2025 script *)

Section Frames.
Variable column : string.
Variable k : value.

(** The values of the key column, and one step of [drop_duplicates]. *)
Definition keys (frame : list record) : list value :=
  (λ r, import_fy2025_payroll.cell r column) <$> frame.

Definition keep (kept : list record) (row : record) : list record :=
  if bool_decide (import_fy2025_payroll.cell row column ∈ keys kept)
  then kept else kept ++ [row].

Lemma filter_without_key (frame : list record) :
  k ∉ keys frame → filter (λ r, import_fy2025_payroll.cell r column = k) frame = [].
Proof.
  induction frame as [|r frame IH]; [done|]. unfold keys. csimpl.
  intros [Hr Hframe]%not_elem_of_cons.
  rewrite filter_cons_False by congruence. by apply IH.
Qed.

Lemma keep_filter (kept : list record) (row : record) :
  filter (λ r, import_fy2025_payroll.cell r column = k) (keep kept row)
  = if bool_decide (k ∈ keys kept)
    then filter (λ r, import_fy2025_payroll.cell r column = k) kept
    else filter (λ r, import_fy2025_payroll.cell r column = k) [row].
Proof.
  unfold keep. case_bool_decide as Hrow; case_bool_decide as Hk.
  - done.
  - rewrite filter_cons_False; [by apply filter_without_key|].
    intros Hkey. by rewrite Hkey in Hrow.
  - rewrite filter_app, (filter_cons_False _ row); [by rewrite app_nil_r|].
    intros Hkey. by rewrite Hkey in Hrow.
  - by rewrite filter_app, filter_without_key.
Qed.

Lemma keep_keys (kept : list record) (row : record) :
  k ∈ keys (keep kept row)
  ↔ k ∈ keys kept ∨ import_fy2025_payroll.cell row column = k.
Proof.
  unfold keep. case_bool_decide as Hrow.
  - split; [by left|]. intros [?| <-]; done.
  - unfold keys. rewrite fmap_app, elem_of_app. csimpl.
    rewrite list_elem_of_singleton. split; (intros [?|?]; [by left | by right]).
Qed.

(** Of the rows with the key [k], the first is kept. *)
Lemma drop_duplicates_fold (frame kept : list record) :
  filter (λ r, import_fy2025_payroll.cell r column = k)
    (fold_left keep frame kept)
  = if bool_decide (k ∈ keys kept)
    then filter (λ r, import_fy2025_payroll.cell r column = k) kept
    else option_list
           (head (filter (λ r, import_fy2025_payroll.cell r column = k) frame)).
Proof.
  revert kept. induction frame as [|row frame IH]; intros kept; simpl.
  - case_bool_decide as Hk; [done|]. by apply filter_without_key.
  - rewrite IH, keep_filter. clear IH.
    pose proof (keep_keys kept row) as Hkeys.
    destruct (decide (import_fy2025_payroll.cell row column = k)) as [Hkey|Hkey].
    + rewrite (bool_decide_eq_true_2 (k ∈ keys (keep kept row)))
        by (apply Hkeys; by right).
      case_bool_decide; [done|]. by rewrite !filter_cons_True.
    + rewrite (filter_cons_False _ row frame) by done.
      case_bool_decide as Hk; case_bool_decide as Hk'; try done.
      * exfalso. apply Hkeys in Hk as [?|?]; done.
      * exfalso. apply Hk, Hkeys. by left.
Qed.
End Frames.

Lemma drop_duplicates_first (column : string) (k : value)
    (before after : list record) (row : record) :
  import_fy2025_payroll.cell row column = k →
  Forall (λ earlier, import_fy2025_payroll.cell earlier column ≠ k) before →
  filter (λ r, import_fy2025_payroll.cell r column = k)
    (import_fy2025_payroll.drop_duplicates column (before ++ row :: after))
  = [row].
Proof.
  intros Hrow Hbefore.
  change (import_fy2025_payroll.drop_duplicates column (before ++ row :: after))
    with (fold_left (keep column) (before ++ row :: after) []).
  rewrite drop_duplicates_fold.
  rewrite bool_decide_eq_false_2 by (by intros ?%elem_of_nil).
  rewrite filter_app, filter_cons_True by done.
  rewrite filter_without_key; [done|].
  intros (r & Hr & Hin)%list_elem_of_fmap.
  rewrite Forall_forall in Hbefore. by apply (Hbefore r Hin).
Qed.

Lemma cell_union_match (column : string) (l r : record) :
  import_fy2025_payroll.cell r column = import_fy2025_payroll.cell l column →
  import_fy2025_payroll.cell (l ∪ r) column
  = import_fy2025_payroll.cell l column.
Proof.
  unfold import_fy2025_payroll.cell. rewrite lookup_union.
  by destruct (l !! column), (r !! column).
Qed.

(** In the FY2025 script the earnings frame loses the later rows of an
    identifier before the join: a row of the joined frame takes the
    earnings columns from the first earnings row of its identifier. *)
Lemma fy2025_first_detail (hr earnings before after : list record)
    (row merged : record) (temporary_id column : string) :
  merged ∈ import_fy2025_payroll.df hr earnings →
  import_fy2025_payroll.cell merged "TEMPORARY_ID" = VStr temporary_id →
  earnings = before ++ row :: after →
  import_fy2025_payroll.cell row "TEMPORARY_ID" = VStr temporary_id →
  Forall (λ earlier,
            import_fy2025_payroll.cell earlier "TEMPORARY_ID"
            ≠ VStr temporary_id) before →
  column ≠ "fiscal_year" →
  Forall (λ l : record, l !! column = None) hr →
  merged !! column = row !! column.
Proof.
  intros Hin Hid -> Hrow Hbefore Hcolumn Hhr.
  unfold import_fy2025_payroll.df, import_fy2025_payroll.merge in Hin.
  apply list_elem_of_fmap in Hin as (m & -> & Hm).
  apply list_elem_of_bind in Hm as (l & Hm & Hl).
  unfold import_fy2025_payroll.cell in Hid.
  rewrite lookup_insert_ne in Hid by done.
  rewrite lookup_insert_ne by done.
  fold (import_fy2025_payroll.cell m "TEMPORARY_ID") in Hid.
  pose proof (drop_duplicates_first "TEMPORARY_ID" (VStr temporary_id)
                before after row Hrow Hbefore) as Hfirst.
  rewrite Forall_forall in Hhr. specialize (Hhr l Hl).
  destruct (filter _ _) as [|r0 rest] eqn:Hf.
  - apply list_elem_of_singleton in Hm as ->.
    rewrite Hid in Hf. rewrite Hf in Hfirst. discriminate Hfirst.
  - apply list_elem_of_fmap in Hm as (r & -> & Hr).
    rewrite <- Hf in Hr. pose proof Hr as Hkey.
    apply list_elem_of_filter in Hkey as [Hkey _].
    rewrite (cell_union_match _ _ _ Hkey) in Hid.
    rewrite Hid in Hr. rewrite Hfirst in Hr.
    apply list_elem_of_singleton in Hr as ->.
    rewrite lookup_union_r by done. done.
Qed.

(** C1, as stated, fails on [import_fy2025_payroll.py]: of the two
    earnings rows of ["A1"], with the regular wages [100.5] and then
    [200.0], both roster rows of ["A1"] get the wages of the first one. *)
Lemma fy2025_first_detail_wins :
  (λ row : record, row !! "REGULAR_WAGES")
    <$> import_fy2025_payroll.df example_hr_frame example_earnings_frame
  = [ Some (VFloat (S754_finite false 7072058789855232 (-46)));
      Some (VFloat (S754_finite false 7072058789855232 (-46)));
      None ]
  ∧ (λ row : record, row !! "REGULAR_WAGES") <$> example_earnings_frame
    = [ Some (VFloat (S754_finite false 7072058789855232 (-46)));
        Some (VFloat (S754_finite false 7036874417766400 (-45))) ].
Proof. split; vm_compute; reflexivity. Qed.

(** C1, amended. When several rows of the earnings sheet have one
    identifier, [import_payroll.py] lets the later row overwrite the
    earlier one in its lookup: a combined record with that identifier takes
    its four wage fields from the last earnings row filed under it.
    [import_fy2025_payroll.py] drops the later rows before its join
    ([keep="first"]): a row of its joined frame with that identifier takes
    the earnings columns from the first earnings row that has it. *)
Theorem join_last_detail_wins :
  (∀ (fiscal_year : Z) (hr_sheet earnings_sheet : import_payroll.sheet)
     (active_col_name : option string) (before after : list (list value))
     (row : list value) (parsed combined : record)
     (temporary_id field : string),
     combined ∈ import_payroll.join fiscal_year
                  (import_payroll.read_hr hr_sheet active_col_name)
                  (import_payroll.read_earnings earnings_sheet) →
     combined !! "temporary_id" = Some (VStr temporary_id) →
     import_payroll.rows earnings_sheet = before ++ row :: after →
     import_payroll.parse_earnings_row row
       (import_payroll.header earnings_sheet) = Some parsed →
     parsed !! "temporary_id" = Some (VStr temporary_id) →
     Forall (λ later,
               import_payroll.row_id
                 (import_payroll.parse_earnings_row
                    later (import_payroll.header earnings_sheet))
               ≠ Some temporary_id) after →
     field ∈ ["regular_wages"; "overtime_wages"; "other_wages";
              "total_wages"] →
     is_Some (parsed !! field) ∧ combined !! field = parsed !! field)
  ∧ (∀ (hr earnings before after : list record) (row merged : record)
       (temporary_id column : string),
       merged ∈ import_fy2025_payroll.df hr earnings →
       import_fy2025_payroll.cell merged "TEMPORARY_ID" = VStr temporary_id →
       earnings = before ++ row :: after →
       import_fy2025_payroll.cell row "TEMPORARY_ID" = VStr temporary_id →
       Forall (λ earlier,
                 import_fy2025_payroll.cell earlier "TEMPORARY_ID"
                 ≠ VStr temporary_id) before →
       column ≠ "fiscal_year" →
       Forall (λ l : record, l !! column = None) hr →
       merged !! column = row !! column).
Proof. split; [apply payroll_last_detail_wins | apply fy2025_first_detail]. Qed.

Lemma batches_elem_of {A} (records batch : list A) (batch_size : nat) (r : A) :
  batch ∈ batches records batch_size → r ∈ batch → r ∈ records.
Proof.
  intros [i Hi]%list_elem_of_lookup_1 Hr.
  apply batches_lookup in Hi as [-> _]. unfold slice in Hr.
  by apply subseteq_take, subseteq_drop in Hr.
Qed.


Lemma head_elem_of {A} (l : list A) (d : A) :
  length l ≠ 0%nat → default d (head l) ∈ l.
Proof. destruct l; [done | intros _; left]. Qed.

(** C1 at the small workbook: the combined record of ["A1"] has the
    regular wages [200.0] of the second earnings row. *)
Lemma join_last_detail_wins_witness :
  let joined :=
    import_payroll.join 2020 (import_payroll.read_hr example_hr_sheet None)
      (import_payroll.read_earnings example_earnings_sheet) in
  length joined = 1%nat
  ∧ default ∅ (head joined) !! "regular_wages"
    = Some (VFloat (S754_finite false 7036874417766400 (-45))).
Proof.
  split; [reflexivity|].
  destruct (proj1 join_last_detail_wins
              2020 example_hr_sheet example_earnings_sheet
              None [[VStr "A1"; VStr "100.50"]] [] [VStr "A1"; VInt 200]
              (default ∅ (import_payroll.parse_earnings_row
                            [VStr "A1"; VInt 200]
                            (import_payroll.header example_earnings_sheet)))
              (default ∅ (head (import_payroll.join 2020
                 (import_payroll.read_hr example_hr_sheet None)
                 (import_payroll.read_earnings example_earnings_sheet))))
              "A1" "regular_wages") as [_ H].
  - apply head_elem_of. by vm_compute.
  - reflexivity.
  - reflexivity.
  - reflexivity.
  - reflexivity.
  - constructor.
  - compute_done.
  - rewrite H. reflexivity.
Defined.


(** C2. The join does not emit one combined record per roster row that has
    an identifier: [hr_data] is a dict keyed by the identifier, so it holds
    one entry per identifier and the join emits one record per entry.  In the
    small workbook two roster rows have the identifier ["A1"] (record numbers
    1 and 2) and the join emits one combined record, the one of record
    number 2. *)
Theorem join_collapses_repeated_identifiers :
  (∀ hr_sheet active_col_name fiscal_year earnings_data,
     NoDup (import_payroll.read_hr hr_sheet active_col_name).*1
     ∧ length (import_payroll.join fiscal_year
                 (import_payroll.read_hr hr_sheet active_col_name)
                 earnings_data)
       = length (import_payroll.read_hr hr_sheet active_col_name))
  ∧ length (valid_roster_rows example_hr_sheet None) = 2%nat
  ∧ (length <$> import_payroll.combined_records example_workbook 2020)
    = Some 1%nat
  ∧ ((λ combined : record, combined !! "record_nbr")
       <$> default [] (import_payroll.combined_records example_workbook 2020))
    = [Some (VInt 2)].
Proof.
  split_and!; try reflexivity.
  intros hr_sheet active_col_name fiscal_year earnings_data. split.
  - apply read_hr_entries.
  - unfold import_payroll.join. apply length_fmap.
Qed.

(** ** Further properties of the join *)

Lemma read_earnings_absent (earnings_sheet : import_payroll.sheet) (k : string) :
  Forall (λ row,
            import_payroll.row_id
              (import_payroll.parse_earnings_row
                 row (import_payroll.header earnings_sheet))
            ≠ Some k) (import_payroll.rows earnings_sheet) →
  import_payroll.read_earnings earnings_sheet !! k = None.
Proof.
  intros Hrows. unfold import_payroll.read_earnings.
  by rewrite read_earnings_later.
Qed.

(** X1. A combined record whose identifier no earnings row is filed under
    has the four wage fields set to [0.0]. *)
Theorem join_without_detail_defaults (fiscal_year : Z)
    (hr_sheet earnings_sheet : import_payroll.sheet)
    (active_col_name : option string) (combined : record)
    (temporary_id field : string) :
  combined ∈ import_payroll.join fiscal_year
               (import_payroll.read_hr hr_sheet active_col_name)
               (import_payroll.read_earnings earnings_sheet) →
  combined !! "temporary_id" = Some (VStr temporary_id) →
  Forall (λ row,
            import_payroll.row_id
              (import_payroll.parse_earnings_row
                 row (import_payroll.header earnings_sheet))
            ≠ Some temporary_id) (import_payroll.rows earnings_sheet) →
  field ∈ ["regular_wages"; "overtime_wages"; "other_wages"; "total_wages"] →
  combined !! field = Some (VFloat Py.zero).
Proof.
  intros Hin Hid Hrows Hfield.
  apply list_elem_of_fmap in Hin as (entry & -> & Hentry).
  destruct (read_hr_entries hr_sheet active_col_name) as [_ Hfiled].
  apply Hfiled, row_id_Some in Hentry as [Hkey Hne].
  rewrite combine_lookup_other in Hid by compute_done.
  assert (entry.1 = temporary_id) as Hk by congruence.
  rewrite combine_lookup_wage by done. rewrite Hk.
  by rewrite read_earnings_absent.
Qed.

(** X1 at the roster of the small workbook and an empty earnings sheet. *)
Lemma join_without_detail_defaults_witness :
  let empty := {| import_payroll.header := [VStr "TEMPORARY_ID"];
                  import_payroll.rows := [] |} in
  let joined :=
    import_payroll.join 2020 (import_payroll.read_hr example_hr_sheet None)
      (import_payroll.read_earnings empty) in
  length joined = 1%nat
  ∧ default ∅ (head joined) !! "total_wages" = Some (VFloat Py.zero).
Proof.
  split; [reflexivity|].
  apply (join_without_detail_defaults 2020 example_hr_sheet
           {| import_payroll.header := [VStr "TEMPORARY_ID"];
              import_payroll.rows := [] |} None _ "A1").
  - apply head_elem_of. by vm_compute.
  - reflexivity.
  - constructor.
  - compute_done.
Defined.

Lemma add_hr_rows_keys (headers : list value) (active_col_name : option string)
    (rs : list (list value)) (d : list (string * record)) :
  (fold_left (import_payroll.add_hr_row headers active_col_name) rs d).*1
  = fold_left (λ seen k, if bool_decide (k ∈ seen) then seen else seen ++ [k])
      (omap (λ row, import_payroll.row_id
                      (import_payroll.parse_hr_row row headers active_col_name))
            rs)
      d.*1.
Proof.
  revert d. induction rs as [|row rs IH]; intros d; [done|].
  cbn [fold_left omap list_omap]. rewrite IH.
  unfold import_payroll.add_hr_row.
  destruct (import_payroll.parse_hr_row row headers active_col_name)
    as [parsed|]; [|reflexivity].
  destruct (import_payroll.row_id (Some parsed)) as [k|]; [|reflexivity].
  cbn [fold_left]. rewrite dict_set_keys. reflexivity.
Qed.

Lemma read_hr_keys (hr_sheet : import_payroll.sheet)
    (active_col_name : option string) :
  (import_payroll.read_hr hr_sheet active_col_name).*1
  = first_occurrences (roster_identifiers hr_sheet active_col_name).
Proof.
  unfold import_payroll.read_hr, first_occurrences, roster_identifiers.
  exact (add_hr_rows_keys (import_payroll.header hr_sheet) active_col_name
           (import_payroll.rows hr_sheet) []).
Qed.

(** X2. The combined records stand in the order in which their identifiers
    first occur in the roster; each carries its identifier, a text that is
    not empty, and no two of them carry the same one. *)
Theorem join_identifiers (fiscal_year : Z) (hr_sheet : import_payroll.sheet)
    (active_col_name : option string) (earnings_data : gmap string record) :
  let hr_data := import_payroll.read_hr hr_sheet active_col_name in
  (λ combined : record, combined !! "temporary_id")
    <$> import_payroll.join fiscal_year hr_data earnings_data
  = (λ k, Some (VStr k)) <$> hr_data.*1
  ∧ hr_data.*1
    = first_occurrences (roster_identifiers hr_sheet active_col_name)
  ∧ NoDup hr_data.*1
  ∧ Forall (λ k, k ≠ "") hr_data.*1.
Proof.
  intros hr_data. subst hr_data.
  destruct (read_hr_entries hr_sheet active_col_name) as [Hnd Hfiled].
  split_and!; [|apply read_hr_keys|done|].
  - unfold import_payroll.join. rewrite <- !list_fmap_compose.
    apply list_fmap_ext. intros i entry Hentry%list_elem_of_lookup_2. simpl.
    rewrite combine_lookup_other by compute_done.
    by apply Hfiled, row_id_Some in Hentry as [-> _].
  - apply Forall_fmap, Forall_forall. intros entry Hentry. simpl.
    by apply Hfiled, row_id_Some in Hentry as [_ ?].
Qed.

(** ** Further properties of the normalizers *)

(** A blank text, a text of white space only and the dash normalize to
    [None] in the integer, decimal, text and hire-date normalizers, as
    [None] itself does. *)
Theorem blank_and_dash_are_null (s : string) :
  blank_or_dash (Py.strip s) = true →
  import_payroll.parse_integer (VStr s) = Ret None
  ∧ import_payroll.parse_float (VStr s) = Ret None
  ∧ import_payroll.parse_text (VStr s) = Ret None
  ∧ import_payroll.parse_last_hire_date (VStr s) = Ret None
  ∧ import_payroll.parse_integer VNone = Ret None
  ∧ import_payroll.parse_float VNone = Ret None
  ∧ import_payroll.parse_text VNone = Ret None
  ∧ import_payroll.parse_last_hire_date VNone = Ret None.
Proof.
  intros Hb.
  unfold import_payroll.parse_integer, import_payroll.parse_float,
    import_payroll.parse_text, import_payroll.parse_last_hire_date.
  by rewrite Hb.
Qed.

(** The same at the texts [""], ["   "] and [" - "]. *)
Lemma blank_and_dash_are_null_witness :
  import_payroll.parse_text (VStr "") = Ret None
  ∧ import_payroll.parse_integer (VStr "   ") = Ret None
  ∧ import_payroll.parse_float (VStr " - ") = Ret None.
Proof.
  split_and!.
  - apply (blank_and_dash_are_null ""). reflexivity.
  - apply (blank_and_dash_are_null "   "). reflexivity.
  - apply (blank_and_dash_are_null " - "). reflexivity.
Defined.

(** The integer normalizer returns an [int] as it is, truncates a
    finite [float] and a text that reads as a finite number towards zero,
    and returns [None] on a text that is not a float literal. *)
Theorem parse_integer_truncates :
  (∀ n : Z, import_payroll.parse_integer (VInt n) = Ret (Some n))
  ∧ (∀ f, Py.is_finite f = true →
          import_payroll.parse_integer (VFloat f) = Ret (Some (Py.trunc f)))
  ∧ (∀ s f, blank_or_dash (Py.strip s) = false →
            Py.float_of_str (Py.strip s) = Ret f →
            Py.is_finite f = true →
            import_payroll.parse_integer (VStr s) = Ret (Some (Py.trunc f)))
  ∧ (∀ s, Py.float_of_str (Py.strip s) = Raise ValueError →
          import_payroll.parse_integer (VStr s) = Ret None)
  ∧ import_payroll.parse_integer (VStr "25610.0") = Ret (Some 25610)
  ∧ import_payroll.parse_integer (VStr "-7.9") = Ret (Some (-7))
  ∧ import_payroll.parse_integer (VStr "12 a") = Ret None.
Proof.
  split_and!; try reflexivity.
  - intros f Hf. by destruct f.
  - intros s f Hb Hs Hf. unfold import_payroll.parse_integer.
    rewrite Hb, Hs. by destruct f.
  - intros s Hs. unfold import_payroll.parse_integer. rewrite Hs.
    by destruct (blank_or_dash _).
Qed.

(** ** The FY2025 script *)

(** X3. The sheet lookup of the FY2025 script returns the first sheet name
    that has the pattern as a part, letter case included: it does not find
    ["fy25 hr info"] for the pattern ["HR INFO"], which
    [find_sheet_by_pattern] finds. *)
Theorem fy2025_find_sheet_case_sensitive :
  (∀ names pattern,
     match import_fy2025_payroll.find_sheet names pattern with
     | Some name =>
         ∃ before after,
           names = before ++ name :: after
           ∧ Py.contains pattern name = true
           ∧ Forall (λ other, Py.contains pattern other = false) before
     | None => Forall (λ other, Py.contains pattern other = false) names
     end)
  ∧ import_fy2025_payroll.find_sheet ["fy25 hr info"] "HR INFO" = None
  ∧ import_payroll.find_in_sheetnames ["fy25 hr info"] "HR INFO"
    = Some "fy25 hr info".
Proof.
  split_and!; try reflexivity.
  intros names pattern. induction names as [|name names IH]; simpl;
    [constructor|].
  destruct (Py.contains pattern name) eqn:Hc.
  - exists [], names. split_and!; [done | done | constructor].
  - destruct (import_fy2025_payroll.find_sheet names pattern) as [found|].
    + destruct IH as (before & after & -> & Hin & Hbefore).
      exists (name :: before), after.
      split_and!; [done | done | by constructor].
    + by constructor.
Qed.


(** ** The text normalizer gives normal forms *)

Lemma lstrip_idempotent (l : list ascii) : Py.lstrip (Py.lstrip l) = Py.lstrip l.
Proof.
  induction l as [|c l IH]; [done|]. simpl.
  destruct (Py.isspace c) eqn:Hc; [done|]. simpl. by rewrite Hc.
Qed.

Lemma lstrip_snoc (l : list ascii) (c : ascii) :
  Py.isspace c = false → ∃ l', Py.lstrip (l ++ [c]) = l' ++ [c].
Proof.
  intros Hc. induction l as [|c' l IH]; simpl.
  - rewrite Hc. by exists [].
  - destruct (Py.isspace c'); [done|]. by exists (c' :: l).
Qed.

Lemma rstrip_cons (l : list ascii) (c : ascii) :
  Py.isspace c = false → ∃ l', Py.rstrip (c :: l) = c :: l'.
Proof.
  intros Hc. unfold Py.rstrip. simpl.
  destruct (lstrip_snoc (rev l) c Hc) as [l' ->].
  rewrite rev_app_distr. simpl. by eexists.
Qed.

Lemma strip_idempotent (s : string) : Py.strip (Py.strip s) = Py.strip s.
Proof.
  unfold Py.strip. rewrite list_ascii_of_string_of_list_ascii. f_equal.
  set (l := Py.lstrip (list_ascii_of_string s)).
  assert (Py.lstrip (Py.rstrip l) = Py.rstrip l) as ->.
  { assert (l = [] ∨ ∃ c t, l = c :: t ∧ Py.isspace c = false) as [->|Hl].
    { subst l. induction (list_ascii_of_string s) as [|c t IH]; simpl;
        [by left|].
      destruct (Py.isspace c) eqn:Hc; [done | right; eauto]. }
    - done.
    - destruct Hl as (c & t & -> & Hc).
      destruct (rstrip_cons t c Hc) as [l' ->]. simpl. by rewrite Hc. }
  unfold Py.rstrip. by rewrite rev_involutive, lstrip_idempotent.
Qed.

Lemma string_of_uint_digit (d : Decimal.uint) :
  ∃ c rest, NilZero.string_of_uint d = String c rest ∧ Py.isdigit c = true.
Proof. destruct d; simpl; eauto. Qed.

Lemma str_int_not_blank (n : Z) : blank_or_dash (Py.str_int n) = false.
Proof.
  unfold Py.str_int, NilZero.string_of_int.
  destruct (Z.to_int n) as [d|d];
    destruct (string_of_uint_digit d) as (c & rest & -> & Hc).
  - unfold blank_or_dash. simpl.
    destruct (Ascii.eqb_spec c "-") as [->|]; [discriminate|done].
  - done.
Qed.

(** The string form of a finite float has a point or an exponent. *)
Lemma str_finite_marked (m : positive) (e : Z) :
  "."%char ∈ chars (Py.str_finite m e) ∨ "e"%char ∈ chars (Py.str_finite m e).
Proof.
  unfold Py.str_finite.
  destruct (Py.fraction m e) as [num den].
  destruct (Py.shortest_decimal _ _ _ _ _ _ _) as [d0 q0].
  destruct (Py.drop_zeros _ _ _) as [d q].
  generalize (Py.str_int d) as ds. intros ds.
  destruct (_ || _).
  - right. rewrite !chars_append. apply elem_of_app. right.
    apply elem_of_app. left. left.
  - left. destruct (_ <=? 0).
    { rewrite chars_append. apply elem_of_app. left. right. left. }
    destruct (_ <=? _).
    { rewrite !chars_append. apply elem_of_app. right.
      apply elem_of_app. right. left. }
    rewrite !chars_append. apply elem_of_app. right.
    apply elem_of_app. left. left.
Qed.

Lemma marked_not_blank (s : string) :
  "."%char ∈ chars s ∨ "e"%char ∈ chars s →
  s ≠ "" ∧ (∀ prefix, blank_or_dash (prefix +:+ s) = false).
Proof.
  intros Hs.
  assert (∀ t, "."%char ∈ chars t ∨ "e"%char ∈ chars t →
               blank_or_dash t = false) as Hmark.
  { intros [|c [|c' t]] Ht.
    - destruct Ht as [Ht|Ht]; by apply elem_of_nil in Ht.
    - destruct Ht as [Ht|Ht]; apply elem_of_cons in Ht as [<-|Ht];
        first [done | by apply elem_of_nil in Ht].
    - unfold blank_or_dash. simpl. by destruct (Ascii.eqb c "-"). }
  split.
  - intros ->. destruct Hs as [Hs|Hs]; by apply elem_of_nil in Hs.
  - intros prefix. apply Hmark. rewrite chars_append.
    destruct Hs; [left | right]; apply elem_of_app; by right.
Qed.

Lemma str_number_not_blank (v : value) :
  is_number v = true → blank_or_dash (str_number v) = false.
Proof.
  destruct v as [|[]|n|f|s|t]; try done; intros _; simpl.
  - apply str_int_not_blank.
  - destruct f as [[]|[]| |[] m e]; try done.
    + apply (marked_not_blank _ (str_finite_marked m e)).
    + apply (proj2 (marked_not_blank _ (str_finite_marked m e)) "").
Qed.

Lemma parse_text_of_number (v : value) :
  is_number v = true →
  import_payroll.parse_text v
  = Ret (if number_truthy v then Some (str_number v) else None).
Proof.
  intros Hv. pose proof (strip_no_space _ (no_space_str_number v)) as Hs.
  destruct v; try discriminate Hv; unfold import_payroll.parse_text;
    by rewrite Hs.
Qed.

Lemma parse_text_stripped (v : value) (t : string) :
  import_payroll.parse_text v = Ret (Some t) →
  Py.strip t = t ∧ blank_or_dash t = false.
Proof.
  intros Hv. destruct (is_number v) eqn:Hnum.
  - rewrite parse_text_of_number in Hv by done.
    destruct (number_truthy v); [|discriminate Hv]. injection Hv as <-.
    split; [apply strip_no_space, no_space_str_number
           | by apply str_number_not_blank].
  - destruct v as [| | | |s|]; try discriminate Hv; try discriminate Hnum.
    unfold import_payroll.parse_text in Hv.
    destruct (blank_or_dash (Py.strip s)) eqn:Hb; [discriminate Hv|].
    injection Hv as <-. split; [apply strip_idempotent | done].
Qed.

(** X5. A text that [parse_text] returns is a normal form: it is not
    empty, it is not the dash, it has no white space at its ends, and
    [parse_text] returns it unchanged when it is normalized again. *)
Theorem parse_text_normal_form (v : value) (t : string) :
  import_payroll.parse_text v = Ret (Some t) →
  t ≠ "" ∧ t ≠ "-" ∧ Py.strip t = t
  ∧ import_payroll.parse_text (VStr t) = Ret (Some t).
Proof.
  intros [Hstrip Hblank]%parse_text_stripped.
  split_and!; [by intros -> | by intros -> | done |].
  simpl. by rewrite Hstrip, Hblank.
Qed.

(** X5 at the cell [" Saint Paul "]. *)
Lemma parse_text_normal_form_witness :
  import_payroll.parse_text (VStr " Saint Paul ") = Ret (Some "Saint Paul")
  ∧ import_payroll.parse_text (VStr "Saint Paul") = Ret (Some "Saint Paul").
Proof.
  split; [reflexivity|].
  apply (parse_text_normal_form (VStr " Saint Paul ") "Saint Paul").
  reflexivity.
Defined.

(** ** Cells are found by the name of their column *)

Lemma data_get_fold_other (key : string) (data : list (value * value))
    (found : value) :
  VStr key ∉ data.*1 →
  fold_left
    (λ found entry,
       match entry.1 with
       | VStr h => if String.eqb h key then entry.2 else found
       | _ => found
       end) data found
  = found.
Proof.
  revert found. induction data as [|[h cell] data IH]; intros found Hnot;
    [done|]. simpl. rewrite IH.
  - destruct h as [| | | |h|]; try done.
    destruct (String.eqb_spec h key) as [->|]; [|done].
    exfalso. apply Hnot. left.
  - intros Hin. apply Hnot. by right.
Qed.

Lemma imap_fst (f : nat → value → value * value) (l : list value) :
  (∀ i h, (f i h).1 = h) → (imap f l).*1 = l.
Proof.
  revert f. induction l as [|h l IH]; intros f Hf; csimpl; [done|].
  rewrite Hf. f_equal. apply IH. intros i h'. apply Hf.
Qed.

Lemma row_data_headers (row headers : list value) :
  (import_payroll.row_data row headers).*1 = headers.
Proof. by apply imap_fst. Qed.

(** X6. [parse_hr_row] and [parse_earnings_row] read a cell by the name of
    its column, wherever the column stands: the cell is the one under the
    last header with that name, [None] when the row is too short to reach
    it, and [None] when no header has the name. *)
Theorem data_get_by_name (row headers : list value) (key : string) :
  (∀ before after,
     headers = before ++ VStr key :: after → VStr key ∉ after →
     import_payroll.data_get (import_payroll.row_data row headers) key
     = default VNone (row !! length before))
  ∧ (VStr key ∉ headers →
     import_payroll.data_get (import_payroll.row_data row headers) key = VNone).
Proof.
  split.
  - intros before after -> Hafter.
    unfold import_payroll.data_get, import_payroll.row_data.
    rewrite imap_app, fold_left_app. cbn [imap fold_left fst snd].
    rewrite String.eqb_refl, Nat.add_0_r.
    apply data_get_fold_other. by rewrite imap_fst.
  - intros Hnot. unfold import_payroll.data_get.
    apply data_get_fold_other. by rewrite row_data_headers.
Qed.

(** X6 at a sheet with a repeated header and a short row. *)
Lemma data_get_by_name_witness :
  import_payroll.data_get
    (import_payroll.row_data
       [VStr "x"; VStr "A1"; VStr "y"]
       [VStr "NOTE"; VStr "TEMPORARY_ID"; VStr "NOTE"; VStr "RECORD_NBR"])
    "NOTE"
  = VStr "y".
Proof.
  destruct (data_get_by_name
              [VStr "x"; VStr "A1"; VStr "y"]
              [VStr "NOTE"; VStr "TEMPORARY_ID"; VStr "NOTE"; VStr "RECORD_NBR"]
              "NOTE") as [H _].
  apply (H [VStr "NOTE"; VStr "TEMPORARY_ID"] [VStr "RECORD_NBR"]).
  - reflexivity.
  - intros [[=]|[]%elem_of_nil]%elem_of_cons.
Defined.

(** ** The schema of the payroll records *)

Lemma normalize_has_kind (k : import_payroll.kind) (cell v : value) :
  import_payroll.normalize k cell = Ret v → has_kind k v.
Proof.
  unfold import_payroll.normalize. destruct k.
  - destruct (import_payroll.parse_text cell) as [[t|]|]; by intros [= <-].
  - destruct (import_payroll.parse_integer cell) as [[n|]|]; by intros [= <-].
  - destruct (import_payroll.parse_float cell) as [[f|]|]; by intros [= <-].
  - destruct (import_payroll.parse_last_hire_date cell) as [[t|]|];
      by intros [= <-].
  - destruct (import_payroll.parse_wage cell) as [f|]; by intros [= <-].
Qed.

Lemma parse_columns_cons (field column : string) (k : import_payroll.kind)
    (rest : list (string * import_payroll.kind * string))
    (data : list (value * value)) (acc : record) :
  import_payroll.parse_columns ((field, k, column) :: rest) data acc
  = match import_payroll.normalize k (import_payroll.data_get data column) with
    | Ret v => import_payroll.parse_columns rest data (<[field := v]> acc)
    | Raise e => Raise e
    end.
Proof. reflexivity. Qed.

Lemma parse_columns_dom (columns : list (string * import_payroll.kind * string))
    (data : list (value * value)) (acc parsed : record) :
  import_payroll.parse_columns columns data acc = Ret parsed →
  dom parsed = dom acc ∪ list_to_set (columns.*1).*1.
Proof.
  revert acc. induction columns as [|[[f k] c] columns IH]; intros acc.
  - intros [= <-]. csimpl. by rewrite (right_id_L ∅ (∪)).
  - rewrite parse_columns_cons.
    destruct (import_payroll.normalize k _) as [v|]; [|done].
    intros Hp. apply IH in Hp. rewrite Hp, dom_insert_L. csimpl.
    by rewrite (comm_L (∪) {[f]}), <-(assoc_L (∪)).
Qed.

Lemma parse_columns_other (columns : list (string * import_payroll.kind * string))
    (data : list (value * value)) (acc parsed : record) (field : string) :
  import_payroll.parse_columns columns data acc = Ret parsed →
  field ∉ (columns.*1).*1 → parsed !! field = acc !! field.
Proof.
  revert acc. induction columns as [|[[f k] c] columns IH]; intros acc.
  - by intros [= <-].
  - rewrite parse_columns_cons.
    destruct (import_payroll.normalize k _) as [v|]; [|done].
    csimpl. intros Hp [Hne Hf]%not_elem_of_cons.
    rewrite (IH _ Hp Hf). by apply lookup_insert_ne.
Qed.

Lemma parse_columns_kinds (columns : list (string * import_payroll.kind * string))
    (data : list (value * value)) (acc parsed : record)
    (field column : string) (k : import_payroll.kind) :
  NoDup (columns.*1).*1 →
  import_payroll.parse_columns columns data acc = Ret parsed →
  (field, k, column) ∈ columns →
  ∃ v, parsed !! field = Some v ∧ has_kind k v.
Proof.
  revert acc. induction columns as [|[[f k'] c] columns IH]; intros acc Hnd.
  - by intros _ ?%elem_of_nil.
  - rewrite parse_columns_cons.
    destruct (import_payroll.normalize k' _) as [v|] eqn:Hv; [|done].
    csimpl in Hnd. apply NoDup_cons in Hnd as [Hf Hnd].
    intros Hp [[= -> -> ->]|Hin]%elem_of_cons.
    + exists v. split; [|by eapply normalize_has_kind].
      rewrite (parse_columns_other _ _ _ _ _ Hp Hf). apply lookup_insert_eq.
    + by eapply IH.
Qed.

Lemma hr_columns_NoDup : NoDup (import_payroll.hr_columns.*1).*1.
Proof. apply (bool_decide_unpack _). by vm_compute. Qed.

Lemma truthy_text_Some (t : option string) (s : string) :
  import_payroll.truthy_text t = Some s → t = Some s ∧ s ≠ "".
Proof.
  destruct t as [s'|]; [|done]. simpl.
  destruct (String.eqb_spec s' ""); [done|]. by intros [= <-].
Qed.

Lemma parse_hr_row_fields (row headers : list value)
    (active_col_name : option string) (parsed : record) :
  import_payroll.parse_hr_row row headers active_col_name = Some parsed →
  dom parsed = hr_schema
  ∧ (∃ id, parsed !! "temporary_id" = Some (VStr id)
           ∧ id ≠ "" ∧ id ≠ "-" ∧ Py.strip id = id)
  ∧ (∃ v, parsed !! "active_on_june_30" = Some v
          ∧ has_kind import_payroll.Text v)
  ∧ (∀ field k column,
       (field, k, column) ∈ import_payroll.hr_columns →
       ∃ v, parsed !! field = Some v ∧ has_kind k v).
Proof.
  unfold import_payroll.parse_hr_row. intros Hp.
  destruct (import_payroll.parse_text _) as [t|] eqn:Ht; [|done].
  cbn [mbind result_bind except_exception] in Hp.
  destruct (import_payroll.truthy_text t) as [id|] eqn:Hid; [|done].
  apply truthy_text_Some in Hid as [-> Hne].
  destruct (import_payroll.parse_columns _ _ _) as [p|] eqn:Hcols; [|done].
  cbn [mbind result_bind except_exception] in Hp.
  assert (∃ active, parsed = <["active_on_june_30" := import_payroll.text_value active]> p)
    as [active ->].
  { destruct active_col_name as [column|].
    - destruct (import_payroll.parse_text (import_payroll.data_get _ column))
        as [active|]; [|done].
      cbn [mbind result_bind except_exception] in Hp.
      injection Hp as <-. by exists active.
    - cbn [mbind result_bind except_exception] in Hp.
      injection Hp as <-. by exists None. }
  clear Hp. split_and!.
  - rewrite dom_insert_L, (parse_columns_dom _ _ _ _ Hcols), dom_singleton_L.
    unfold hr_schema. csimpl.
    by rewrite (assoc_L (∪)), (comm_L (∪) {["active_on_june_30"]}),
      <-(assoc_L (∪)).
  - exists id. destruct (parse_text_stripped _ _ Ht) as [Hs Hdash].
    split_and!; [|done|by intros ->|done].
    rewrite lookup_insert_ne by done.
    rewrite (parse_columns_other _ _ _ _ _ Hcols) by compute_done.
    apply lookup_singleton_eq.
  - exists (import_payroll.text_value active). split; [apply lookup_insert_eq|].
    by destruct active.
  - intros field k column Hin.
    destruct (parse_columns_kinds _ _ _ _ field column k
                hr_columns_NoDup Hcols Hin) as (v & Hv & Hk).
    exists v. split; [|done]. rewrite lookup_insert_ne; [done|].
    intros <-. apply (list_elem_of_fmap_2 fst), (list_elem_of_fmap_2 fst) in Hin.
    revert Hin. apply (bool_decide_unpack _). by vm_compute.
Qed.

(** X7. A roster row that parses gives a record with exactly the fields of
    the roster schema: the identifier is a text in normal form, and every
    other field holds [None] or a value of the type of its column (text,
    integer or decimal). *)
Theorem parse_hr_row_schema (row headers : list value)
    (active_col_name : option string) (parsed : record) :
  import_payroll.parse_hr_row row headers active_col_name = Some parsed →
  dom parsed = hr_schema
  ∧ (∃ id, parsed !! "temporary_id" = Some (VStr id)
           ∧ id ≠ "" ∧ id ≠ "-" ∧ Py.strip id = id)
  ∧ (∃ v, parsed !! "active_on_june_30" = Some v
          ∧ has_kind import_payroll.Text v)
  ∧ (∀ field k column,
       (field, k, column) ∈ import_payroll.hr_columns →
       ∃ v, parsed !! field = Some v ∧ has_kind k v).
Proof. apply parse_hr_row_fields. Qed.

(** X7 at the first roster row of the small workbook. *)
Lemma parse_hr_row_schema_witness :
  ∃ parsed,
    import_payroll.parse_hr_row
      [VStr "A1"; VInt 1] (import_payroll.header example_hr_sheet) None
    = Some parsed
    ∧ dom parsed = hr_schema.
Proof.
  assert (is_Some (import_payroll.parse_hr_row
                     [VStr "A1"; VInt 1]
                     (import_payroll.header example_hr_sheet) None))
    as [parsed Hp].
  { apply (bool_decide_unpack _). vm_compute. reflexivity. }
  exists parsed. split; [exact Hp|].
  exact (proj1 (parse_hr_row_schema _ _ _ _ Hp)).
Defined.

(** Every entry of [hr_data] is the record of a roster row, and every
    record of [earnings_data] the record of an earnings row. *)
Lemma read_hr_parsed (hr_sheet : import_payroll.sheet)
    (active_col_name : option string) (entry : string * record) :
  entry ∈ import_payroll.read_hr hr_sheet active_col_name →
  ∃ row, row ∈ import_payroll.rows hr_sheet
         ∧ import_payroll.parse_hr_row
             row (import_payroll.header hr_sheet) active_col_name
           = Some entry.2.
Proof.
  unfold import_payroll.read_hr.
  generalize (import_payroll.header hr_sheet) as headers.
  intros headers.
  assert (∀ rs d,
    entry ∈ fold_left (import_payroll.add_hr_row headers active_col_name) rs d →
    entry ∈ d
    ∨ ∃ row, row ∈ rs
             ∧ import_payroll.parse_hr_row row headers active_col_name
               = Some entry.2) as Hfold.
  { induction rs as [|row rs IH]; intros d; simpl; [by left|].
    intros [Hin|(row' & Hrow' & Hp)]%IH.
    - unfold import_payroll.add_hr_row in Hin.
      destruct (import_payroll.parse_hr_row row _ _) as [parsed|] eqn:Hp;
        [|by left].
      destruct (import_payroll.row_id (Some parsed)) as [k|]; [|by left].
      apply dict_set_elem_of in Hin as [->|Hin]; [|by left].
      right. exists row. split; [by left | done].
    - right. exists row'. split; [by right | done]. }
  intros [[]%elem_of_nil|Hrow]%Hfold. done.
Qed.

Lemma read_earnings_parsed (earnings_sheet : import_payroll.sheet)
    (k : string) (parsed : record) :
  import_payroll.read_earnings earnings_sheet !! k = Some parsed →
  ∃ row, row ∈ import_payroll.rows earnings_sheet
         ∧ import_payroll.parse_earnings_row
             row (import_payroll.header earnings_sheet)
           = Some parsed.
Proof.
  unfold import_payroll.read_earnings.
  generalize (import_payroll.header earnings_sheet) as headers.
  intros headers.
  assert (∀ rs (d : gmap string record),
    fold_left (import_payroll.add_earnings_row headers) rs d !! k
    = Some parsed →
    d !! k = Some parsed
    ∨ ∃ row, row ∈ rs
             ∧ import_payroll.parse_earnings_row row headers = Some parsed)
    as Hfold.
  { induction rs as [|row rs IH]; intros d; simpl; [by left|].
    intros [Hk|(row' & Hrow' & Hp)]%IH.
    - unfold import_payroll.add_earnings_row in Hk.
      destruct (import_payroll.parse_earnings_row row _) as [p|] eqn:Hp;
        [|by left].
      destruct (import_payroll.row_id (Some p)) as [k'|]; [|by left].
      destruct (decide (k' = k)) as [->|Hne].
      + rewrite lookup_insert_eq in Hk. injection Hk as ->.
        right. exists row. split; [by left | done].
      + rewrite lookup_insert_ne in Hk by done. by left.
    - right. exists row'. split; [by right | done]. }
  intros [Hk|Hrow]%Hfold; [by rewrite lookup_empty in Hk | done].
Qed.

Lemma earnings_columns_NoDup : NoDup (import_payroll.earnings_columns.*1).*1.
Proof. apply (bool_decide_unpack _). by vm_compute. Qed.

Lemma parse_earnings_row_floats (row headers : list value) (parsed : record)
    (field : string) :
  import_payroll.parse_earnings_row row headers = Some parsed →
  field ∈ wage_fields →
  ∃ x, parsed !! field = Some (VFloat x).
Proof.
  unfold import_payroll.parse_earnings_row. intros Hp Hf.
  destruct (import_payroll.parse_text _) as [t|]; [|done].
  cbn [mbind result_bind except_exception] in Hp.
  destruct (import_payroll.truthy_text t) as [temporary_id|]; [|done].
  destruct (import_payroll.parse_columns _ _ _) as [p|] eqn:Hcols; [|done].
  cbn [mbind result_bind except_exception] in Hp. injection Hp as <-.
  assert (∃ column,
    (field, import_payroll.Wage, column) ∈ import_payroll.earnings_columns)
    as [column Hin].
  { unfold wage_fields in Hf.
    repeat (apply elem_of_cons in Hf as [->|Hf];
            [eexists; unfold import_payroll.earnings_columns;
             repeat first [by left | right]|]).
    by apply elem_of_nil in Hf. }
  destruct (parse_columns_kinds _ _ _ _ _ _ _
              earnings_columns_NoDup Hcols Hin) as (v & Hv & Hk).
  destruct v; try done. by eexists.
Qed.

Lemma combine_dom (fiscal_year : Z) (earnings_data : gmap string record)
    (entry : string * record) :
  dom (import_payroll.combine fiscal_year earnings_data entry)
  = dom entry.2 ∪ list_to_set ("fiscal_year" :: wage_fields).
Proof.
  unfold import_payroll.combine. rewrite !dom_insert_L. csimpl.
  apply set_eq. intros x.
  rewrite !elem_of_union, !elem_of_singleton, elem_of_empty. tauto.
Qed.

(** X8. Every combined record has exactly the fields of the payroll
    schema; its identifier is a non-empty text, its four wage fields hold
    decimals and are never null, its fiscal year is the year as text, and
    every roster field holds [None] or a value of the type of its column. *)
Theorem combined_record_schema (fiscal_year : Z)
    (hr_sheet earnings_sheet : import_payroll.sheet)
    (active_col_name : option string) (combined : record) :
  combined ∈ import_payroll.join fiscal_year
               (import_payroll.read_hr hr_sheet active_col_name)
               (import_payroll.read_earnings earnings_sheet) →
  dom combined = payroll_schema
  ∧ (∃ id, combined !! "temporary_id" = Some (VStr id) ∧ id ≠ "")
  ∧ (∀ field, field ∈ wage_fields →
              ∃ x, combined !! field = Some (VFloat x))
  ∧ combined !! "fiscal_year" = Some (VStr (Py.str_int fiscal_year))
  ∧ (∀ field k column,
       (field, k, column) ∈ import_payroll.hr_columns →
       ∃ v, combined !! field = Some v ∧ has_kind k v).
Proof.
  unfold import_payroll.join.
  intros (entry & -> & Hentry)%list_elem_of_fmap.
  destruct (read_hr_parsed _ _ _ Hentry) as (row & _ & Hrow).
  destruct (parse_hr_row_fields _ _ _ _ Hrow) as (Hdom & Hid & _ & Hkinds).
  split_and!.
  - by rewrite combine_dom, Hdom.
  - destruct Hid as (id & Hid & Hne & _). exists id. split; [|done].
    rewrite combine_lookup_other; [done|]. compute_done.
  - intros field Hf. rewrite combine_lookup_wage by done.
    unfold import_payroll.wage_field.
    destruct (import_payroll.read_earnings earnings_sheet !! entry.1)
      as [p|] eqn:Hp; simpl.
    + destruct (read_earnings_parsed _ _ _ Hp) as (erow & _ & Herow).
      destruct (parse_earnings_row_floats _ _ _ _ Herow Hf) as [x ->].
      by exists x.
    + rewrite lookup_empty. by eexists.
  - apply combine_lookup_fiscal_year.
  - intros field k column Hin.
    destruct (Hkinds _ _ _ Hin) as (v & Hv & Hk). exists v. split; [|done].
    rewrite combine_lookup_other; [done|].
    apply (list_elem_of_fmap_2 fst), (list_elem_of_fmap_2 fst) in Hin.
    intros Hf. revert Hin. unfold wage_fields in *.
    repeat (apply elem_of_cons in Hf as [->|Hf];
            [apply (bool_decide_unpack _); by vm_compute|]).
    by apply elem_of_nil in Hf.
Qed.

(** X8 at the small workbook. *)
Lemma combined_record_schema_witness :
  ∃ combined,
    head (import_payroll.join 2020
            (import_payroll.read_hr example_hr_sheet None)
            (import_payroll.read_earnings example_earnings_sheet))
    = Some combined
    ∧ dom combined = payroll_schema.
Proof.
  assert (is_Some (head (import_payroll.join 2020
                           (import_payroll.read_hr example_hr_sheet None)
                           (import_payroll.read_earnings
                              example_earnings_sheet))))
    as [combined Hc].
  { apply (bool_decide_unpack _). vm_compute. reflexivity. }
  exists combined. split; [exact Hc|].
  exact (proj1 (combined_record_schema 2020 example_hr_sheet
                  example_earnings_sheet None combined
                  (head_Some_elem_of _ _ Hc))).
Defined.

(** ** The counts of the payroll loader *)

Section Counts.
Context {St : Type}.
Variable insert : St → list record → St * outcome.
(** The store answers an insert with the rows it inserted, or without
    data. *)
Hypothesis insert_data :
  ∀ st batch data,
    (insert st batch).2 = Data data →
    data = [] ∨ length data = length batch.

Lemma insert_batches_counts (bs : list (list record)) (s : load_state St) :
  let s' := fold_left (import_payroll.insert_batch insert) bs s in
  (total_inserted s' + skipped s')%nat
  = (total_inserted s + skipped s + length (concat bs))%nat.
Proof.
  revert s. induction bs as [|batch bs IH]; intros s; simpl; [lia|].
  rewrite IH, length_app. unfold import_payroll.insert_batch.
  pose proof (insert_data (store s) batch) as Hdata.
  destruct (insert (store s) batch) as [st [|data]]; simpl in *; [lia|].
  destruct (Hdata data eq_refl) as [->|Hlen]; [lia|].
  destruct data; simpl in *; lia.
Qed.

End Counts.

(** X9. With a batch size above zero and a store that answers an insert
    with the rows it inserted or with no data, the payroll import of a file
    counts every combined record once, as inserted or as skipped; and when
    the file cannot be read, a sheet is missing or no roster row has an
    identifier, the store is not called and the counts are [(0, 0)]. *)
Theorem import_payroll_file_counts {St}
    (insert : St → list record → St * outcome) (batch_size : nat) (st : St)
    (file : option import_payroll.workbook) (fiscal_year : Z) :
  (0 < batch_size)%nat →
  (∀ st batch data,
     (insert st batch).2 = Data data →
     data = [] ∨ length data = length batch) →
  let records :=
    default [] (file ≫= λ wb, import_payroll.combined_records wb fiscal_year) in
  let run :=
    import_payroll.import_payroll_file_with insert batch_size st file
      fiscal_year in
  (total_inserted run + skipped run)%nat = length records
  ∧ (records = [] →
     calls run = [] ∧ (total_inserted run, skipped run) = (0%nat, 0%nat)).
Proof.
  intros Hpos Hdata records run. subst records run.
  unfold import_payroll.import_payroll_file_with.
  destruct file as [wb|]; simpl; [|done].
  destruct (import_payroll.combined_records wb fiscal_year) as [[|r records]|];
    simpl; [done| |done].
  split; [|done]. unfold import_payroll.load.
  rewrite (insert_batches_counts insert Hdata), batches_concat by done.
  done.
Qed.

(** X9 at the small workbook, with a store that raises on the one batch
    of one record. *)
Lemma import_payroll_file_counts_witness :
  let records :=
    default [] (Some example_workbook
                ≫= λ wb, import_payroll.combined_records wb 2020) in
  let run :=
    import_payroll.import_payroll_file_with scenario_store 2 tt
      (Some example_workbook) 2020 in
  (total_inserted run + skipped run)%nat = length records
  ∧ length records = 1%nat.
Proof.
  split; [|vm_compute; reflexivity].
  refine (proj1 (import_payroll_file_counts scenario_store 2 tt
                   (Some example_workbook) 2020 _ _)); [lia|].
  intros st batch data. unfold scenario_store. simpl.
  case_bool_decide; [|discriminate]. intros [= <-]. by right.
Defined.

(** ** The budget rows *)

Lemma float_of_str_raises (s : string) (e : exn) :
  Py.float_of_str s = Raise e → e = ValueError.
Proof.
  unfold Py.float_of_str. intros H.
  repeat case_match; congruence.
Qed.

Lemma int_of_str_raises (s : string) (e : exn) :
  Py.int_of_str s = Raise e → e = ValueError.
Proof.
  unfold Py.int_of_str. intros H.
  repeat case_match; congruence.
Qed.

Lemma parse_decimal_returns (value : option string) :
  ∃ amount, import_budgets.parse_decimal value = Ret amount.
Proof.
  unfold import_budgets.parse_decimal. destruct value as [value|]; [|by eexists].
  case_match; [by eexists|].
  destruct (Py.float_of_str _) as [f|e] eqn:Hf; [by eexists|].
  apply float_of_str_raises in Hf as ->. by eexists.
Qed.

Lemma budgets_parse_integer_returns (value : option string) :
  ∃ n, import_budgets.parse_integer value = Ret n.
Proof.
  unfold import_budgets.parse_integer. destruct value as [text|]; [|by eexists].
  case_match; [by eexists|].
  destruct (Py.int_of_str _) as [n|e] eqn:Hn; [by eexists|].
  apply int_of_str_raises in Hn as ->. by eexists.
Qed.

Lemma add_amounts_returns (columns : list (string * string))
    (row : import_budgets.csv_row) (acc : record) :
  ∃ parsed, import_budgets.add_amounts columns row acc = Ret parsed
            ∧ dom parsed = dom acc ∪ list_to_set columns.*1
            ∧ (∀ field, field ∉ columns.*1 → parsed !! field = acc !! field)
            ∧ (∀ field, field ∈ columns.*1 →
                        ∃ x, parsed !! field = Some (VFloat x)).
Proof.
  revert acc. induction columns as [|[field column] columns IH]; intros acc.
  - exists acc. csimpl. split_and!; [done| |done|by intros ? ?%elem_of_nil].
    by rewrite (right_id_L ∅ (∪)).
  - cbn [import_budgets.add_amounts].
    destruct (parse_decimal_returns
                (import_budgets.row_get row column "0")) as [amount ->].
    cbn [mbind result_bind].
    destruct (IH (<[field := VFloat amount]> acc))
      as (parsed & -> & Hdom & Hother & Hin).
    exists parsed. csimpl. split_and!; [done|..].
    + rewrite Hdom, dom_insert_L.
      by rewrite (comm_L (∪) {[field]}), <-(assoc_L (∪)).
    + intros f [Hne Hf]%not_elem_of_cons.
      rewrite (Hother f Hf). by apply lookup_insert_ne.
    + intros f Hf. destruct (decide (f ∈ columns.*1)) as [Hc|Hc].
      * by apply Hin.
      * apply elem_of_cons in Hf as [->|Hf]; [|done].
        exists amount. rewrite (Hother _ Hc). apply lookup_insert_eq.
Qed.

Lemma normalize_text_Some (value : option string) (t : string) :
  import_budgets.normalize_text value = Some t →
  t ≠ "" ∧ Py.strip t = t.
Proof.
  unfold import_budgets.normalize_text, import_budgets.blank.
  destruct value as [text|]; [|done].
  destruct (String.eqb text ""); [done|]. simpl.
  destruct (String.eqb_spec (Py.strip text) ""); [done|].
  intros [= <-]. split; [done | apply strip_idempotent].
Qed.

(** What a parsed budget row is made of. *)
Lemma parse_budget_row_cases (row : import_budgets.csv_row) :
  (import_budgets.parse_integer
     (import_budgets.row_get row "Budget Period" "") = Ret None
   ∧ import_budgets.parse_budget_row row = None)
  ∨ ∃ budget_period parsed,
      import_budgets.parse_integer
        (import_budgets.row_get row "Budget Period" "")
      = Ret (Some budget_period)
      ∧ import_budgets.parse_budget_row row = Some parsed
      ∧ import_budgets.add_amounts import_budgets.amount_columns row
          (import_budgets.add_texts
             row {[ "budget_period" := VInt budget_period ]})
        = Ret parsed.
Proof.
  unfold import_budgets.parse_budget_row.
  destruct (budgets_parse_integer_returns
              (import_budgets.row_get row "Budget Period" "")) as [[n|] ->];
    cbn [mbind result_bind except_exception]; [|by left].
  destruct (add_amounts_returns import_budgets.amount_columns row
              (import_budgets.add_texts row {[ "budget_period" := VInt n ]}))
    as (parsed & Hp & _).
  right. exists n, parsed. rewrite Hp. done.
Qed.

(** X10. A budget row is skipped exactly when its budget period is
    missing, blank or not an integer: an amount or a text that cannot be
    read never costs the row. *)
Theorem parse_budget_row_skips (row : import_budgets.csv_row) :
  import_budgets.parse_budget_row row = None
  ↔ import_budgets.parse_integer
      (import_budgets.row_get row "Budget Period" "") = Ret None.
Proof.
  destruct (parse_budget_row_cases row)
    as [[Hn Hp]|(n & parsed & Hn & Hp & _)]; rewrite Hn, Hp; by split.
Qed.

(** X11. The record of a budget row that parses has exactly the eleven
    fields of the budget schema: the budget period is the integer of the
    row, each of the six amounts is a decimal and never null, and each of
    the four texts is null or a non-empty text without white space at its
    ends. *)
Theorem parse_budget_row_schema (row : import_budgets.csv_row)
    (parsed : record) :
  import_budgets.parse_budget_row row = Some parsed →
  dom parsed = budget_schema
  ∧ (∃ budget_period,
       import_budgets.parse_integer
         (import_budgets.row_get row "Budget Period" "")
       = Ret (Some budget_period)
       ∧ parsed !! "budget_period" = Some (VInt budget_period))
  ∧ (∀ field, field ∈ import_budgets.amount_columns.*1 →
              ∃ x, parsed !! field = Some (VFloat x))
  ∧ (∀ field, field ∈ import_budgets.text_columns.*1 →
              parsed !! field = Some VNone
              ∨ ∃ t, parsed !! field = Some (VStr t)
                     ∧ t ≠ "" ∧ Py.strip t = t).
Proof.
  intros Hparsed.
  destruct (parse_budget_row_cases row)
    as [[_ Hp]|(n & parsed' & Hn & Hp & Hamounts)]; [congruence|].
  assert (parsed' = parsed) as -> by congruence. clear Hp Hparsed.
  destruct (add_amounts_returns import_budgets.amount_columns row
              (import_budgets.add_texts row {[ "budget_period" := VInt n ]}))
    as (parsed' & Hp & Hdom & Hother & Hfloat).
  assert (parsed' = parsed) as -> by congruence. clear Hp.
  split_and!.
  - rewrite Hdom. unfold import_budgets.add_texts, budget_schema.
    cbn [foldr import_budgets.text_columns].
    rewrite !dom_insert_L, dom_singleton_L. csimpl.
    apply set_eq. intros x.
    rewrite !elem_of_union, !elem_of_singleton, elem_of_empty. tauto.
  - exists n. split; [done|]. rewrite Hother by compute_done.
    unfold import_budgets.add_texts. cbn [foldr import_budgets.text_columns].
    by rewrite !lookup_insert_ne, lookup_singleton_eq by done.
  - done.
  - intros field Hf.
    assert (∃ column,
      parsed !! field
      = Some (from_option VStr VNone
                (import_budgets.normalize_text
                   (import_budgets.row_get row column "")))) as [column ->].
    { rewrite Hother.
      - unfold import_budgets.add_texts.
        cbn [foldr import_budgets.text_columns]. csimpl in Hf.
        repeat (apply elem_of_cons in Hf as [->|Hf];
                [eexists; by rewrite ?lookup_insert_ne, lookup_insert_eq
                              by done|]).
        by apply elem_of_nil in Hf.
      - intros Ha. revert Hf. csimpl in *.
        repeat (apply elem_of_cons in Ha as [->|Ha];
                [apply (bool_decide_unpack _); by vm_compute|]).
        by apply elem_of_nil in Ha. }
    destruct (import_budgets.normalize_text _) as [t|] eqn:Ht; simpl;
      [|by left].
    right. exists t. split; [done|]. by apply normalize_text_Some in Ht.
Qed.

(** X11 at a row with missing columns and an amount that is not a number. *)
Lemma parse_budget_row_schema_witness :
  ∃ parsed,
    import_budgets.parse_budget_row example_budget_row = Some parsed
    ∧ dom parsed = budget_schema.
Proof.
  assert (is_Some (import_budgets.parse_budget_row example_budget_row))
    as [parsed Hp].
  { apply (bool_decide_unpack _). vm_compute. reflexivity. }
  exists parsed. split; [exact Hp|].
  exact (proj1 (parse_budget_row_schema example_budget_row parsed Hp)).
Defined.

(** ** The budget file *)

Lemma loaders_budget_run {St}
    (upsert insert : St → list record → St * outcome) (st : St)
    (records : list record) (batch_size skipped0 : nat) :
  let run :=
    import_budgets.load_with upsert insert batch_size st records skipped0 in
  ∃ raised,
    budget_run upsert insert st (batches records batch_size) (calls run) raised
    ∧ skipped run = skipped0
    ∧ (raised = true → total_inserted run = 0%nat).
Proof.
  intros run. subst run.
  unfold import_budgets.load_with. destruct records as [|r records].
  { exists false. simpl. split_and!; [constructor | done | done]. }
  set (s0 := {| store := st; total_inserted := 0; skipped := skipped0;
                calls := [] |}).
  destruct (load_batches_run upsert insert
              (batches (r :: records) batch_size) s0) as (cs & Hc & Hb & Hs).
  destruct (import_budgets.load_batches _ _ _ _) as [s raised].
  simpl in *. subst cs. exists raised. destruct raised; simpl; done.
Qed.


Lemma read_rows_fold (rows : list import_budgets.csv_row)
    (acc : list record * nat) :
  let read := fold_left import_budgets.read_row rows acc in
  read.1 = acc.1 ++ omap import_budgets.parse_budget_row rows
  ∧ (read.2 + length (omap import_budgets.parse_budget_row rows))%nat
    = (acc.2 + length rows)%nat.
Proof.
  revert acc. induction rows as [|row rows IH]; intros acc; csimpl.
  - rewrite app_nil_r. split; [done | lia].
  - destruct (IH (import_budgets.read_row acc row)) as [-> Hn].
    unfold import_budgets.read_row in *.
    destruct (import_budgets.parse_budget_row row) as [parsed|]; csimpl in *.
    + rewrite <- app_assoc. split; [done | lia].
    + split; [done | lia].
Qed.

Lemma budget_run_batches {St} (upsert insert : St → list record → St * outcome)
    (st : St) (bs : list (list record)) (cs : list call) (raised : bool) :
  budget_run upsert insert st bs cs raised →
  ∀ c, c ∈ cs → call_batch c ∈ bs.
Proof.
  induction 1 as [|? ? ? ? ? ? ? _ _ IH|? ? ? ? ? ? ? ? _ _ _ IH|];
    intros c Hc.
  - by apply elem_of_nil in Hc.
  - apply elem_of_cons in Hc as [->|Hc]; [left | right; by apply IH].
  - apply elem_of_cons in Hc as [->|Hc]; [left|].
    apply elem_of_cons in Hc as [->|Hc]; [left | right; by apply IH].
  - apply elem_of_cons in Hc as [->|Hc]; [left|].
    apply elem_of_cons in Hc as [->|Hc]; [left | by apply elem_of_nil in Hc].
Qed.

(** X12. The budget import of a file that is found reads every row once:
    the rows that parse and the rows reported as skipped add up to the rows
    of the file, whatever the store does; every record sent to the store is
    the record of a row of the file; and when no row parses the store is
    not called. *)
Theorem import_budget_file_rows {St}
    (upsert insert : St → list record → St * outcome) (batch_size : nat)
    (st : St) (rows : list import_budgets.csv_row) :
  let run :=
    import_budgets.import_budget_file_with upsert insert batch_size st
      (Some rows) in
  let records := omap import_budgets.parse_budget_row rows in
  (skipped run + length records)%nat = length rows
  ∧ (∀ c r, c ∈ calls run → r ∈ call_batch c →
            ∃ row, row ∈ rows
                   ∧ import_budgets.parse_budget_row row = Some r)
  ∧ (records = [] → calls run = [] ∧ total_inserted run = 0%nat).
Proof.
  intros run records. subst run records.
  unfold import_budgets.import_budget_file_with, import_budgets.read_rows.
  destruct (read_rows_fold rows ([], 0%nat)) as [Hrecords Hskipped].
  destruct (fold_left import_budgets.read_row rows ([], 0%nat))
    as [records skipped]. simpl in Hrecords, Hskipped. subst records.
  set (records := omap import_budgets.parse_budget_row rows) in *.
  destruct (loaders_budget_run upsert insert st records batch_size skipped)
    as (raised & Hrun & Hs & _).
  split_and!.
  - rewrite Hs. lia.
  - intros c r Hc Hr.
    apply (budget_run_batches _ _ _ _ _ _ Hrun) in Hc.
    apply (batches_elem_of _ _ _ r Hc) in Hr.
    apply list_elem_of_omap in Hr as (row & Hrow & Hp). by exists row.
  - intros ->. done.
Qed.

(** ** The clean-up of the FY2025 records *)

Lemma float_of_int_raises (n : Z) (e : exn) :
  Py.float_of_int n = Raise e → e = OverflowError.
Proof. unfold Py.float_of_int. intros H. repeat case_match; congruence. Qed.

Lemma clean_item_returns (k : string) (v v' : value) :
  import_fy2025_payroll.clean_item k v = Ret v' →
  v' ≠ VFloat S754_nan
  ∧ (k ∈ import_fy2025_payroll.int_cols_set → v' = VNone ∨ ∃ n, v' = VInt n)
  ∧ (k ∉ import_fy2025_payroll.int_cols_set →
     v' = match v with VFloat S754_nan => VNone | _ => v end).
Proof.
  unfold import_fy2025_payroll.clean_item. intros H.
  assert (v = VNone ∨ v = VFloat S754_nan ∨
          (v ≠ VNone ∧ v ≠ VFloat S754_nan
           ∧ (if bool_decide (k ∈ import_fy2025_payroll.int_cols_set)
              then except_value_type
                     (f ← import_fy2025_payroll.float_value v;
                      n ← Py.int_of_float f; Ret (VInt n)) VNone
              else Ret v) = Ret v')) as [->|[->|(Hnone & Hnan & Hv)]].
  { destruct v as [| | |[]| |]; auto; right; right; done. }
  - injection H as <-. split_and!; [done | by left | done].
  - injection H as <-. split_and!; [done | by left | done].
  - clear H. case_bool_decide as Hk.
    + split_and!; [| |done].
      * destruct (import_fy2025_payroll.float_value v) as [f|[]];
          cbn [mbind result_bind except_value_type] in Hv; try congruence.
        destruct (Py.int_of_float f) as [n|[]];
          cbn [mbind result_bind except_value_type] in Hv; congruence.
      * intros _.
        destruct (import_fy2025_payroll.float_value v) as [f|[]];
          cbn [mbind result_bind except_value_type] in Hv;
          try (left; congruence); try congruence.
        destruct (Py.int_of_float f) as [n|[]];
          cbn [mbind result_bind except_value_type] in Hv;
          try (left; congruence); try congruence.
        right. exists n. congruence.
    + injection Hv as <-. split_and!; [done | done |].
      intros _. by destruct v as [| | |[]| |].
Qed.

Lemma clean_item_raises (k : string) (v : value) (e : exn) :
  import_fy2025_payroll.clean_item k v = Raise e →
  e = OverflowError ∧ k ∈ import_fy2025_payroll.int_cols_set
  ∧ (import_fy2025_payroll.float_value v = Raise OverflowError
     ∨ ∃ sign, import_fy2025_payroll.float_value v
               = Ret (S754_infinity sign)).
Proof.
  unfold import_fy2025_payroll.clean_item. intros H.
  assert ((if bool_decide (k ∈ import_fy2025_payroll.int_cols_set)
           then except_value_type
                  (f ← import_fy2025_payroll.float_value v;
                   n ← Py.int_of_float f; Ret (VInt n)) VNone
           else Ret v) = Raise e) as Hv.
  { by destruct v as [| | |[]| |]. }
  clear H. case_bool_decide as Hk; [|done].
  destruct (import_fy2025_payroll.float_value v) as [f|[]] eqn:Hf;
    cbn [mbind result_bind except_value_type] in Hv; try done.
  - destruct f; cbn [Py.int_of_float mbind result_bind except_value_type] in Hv;
      try done.
    injection Hv as <-. split_and!; [done | done | right; by eexists].
  - injection Hv as <-. split_and!; [done | done | by left].
Qed.

(** The loop over the items of a record, from any record [r0] it starts to
    assign into. *)
Lemma clean_fold (r0 r : record) :
  match map_fold (λ k v acc,
                    r' ← acc; v' ← import_fy2025_payroll.clean_item k v;
                    Ret (<[k := v']> r'))
                 (Ret r0) r with
  | Ret r' =>
      ∀ k, match r !! k with
           | Some v => ∃ v', import_fy2025_payroll.clean_item k v = Ret v'
                             ∧ r' !! k = Some v'
           | None => r' !! k = r0 !! k
           end
  | Raise e =>
      ∃ k v, r !! k = Some v
             ∧ import_fy2025_payroll.clean_item k v = Raise e
  end.
Proof.
  apply (map_fold_weak_ind (λ res (m : record),
    match res with
    | Ret r' =>
        ∀ k, match m !! k with
             | Some v => ∃ v', import_fy2025_payroll.clean_item k v = Ret v'
                               ∧ r' !! k = Some v'
             | None => r' !! k = r0 !! k
             end
    | Raise e =>
        ∃ k v, m !! k = Some v
               ∧ import_fy2025_payroll.clean_item k v = Raise e
    end)).
  - intros k. by rewrite lookup_empty.
  - intros i x m res Hi IH. destruct res as [r'|e];
      cbn [mbind result_bind].
    + destruct (import_fy2025_payroll.clean_item i x) as [v'|e] eqn:Hx;
        cbn [mbind result_bind].
      * intros k. destruct (decide (k = i)) as [->|Hne].
        -- rewrite !lookup_insert_eq. by exists v'.
        -- rewrite !lookup_insert_ne by done. apply IH.
      * exists i, x. by rewrite lookup_insert_eq.
    + destruct IH as (k & v & Hk & Hv). exists k, v. split; [|done].
      rewrite lookup_insert_ne; [done|]. intros ->. congruence.
Qed.

(** X13. When the clean-up of a record of the FY2025 import returns, the
    record has the fields it had, no field holds a NaN, every integer
    column holds [None] or an integer, and every other field holds what it
    held, a NaN being replaced by [None]. *)
Theorem clean_record_cleans (r r' : record) :
  import_fy2025_payroll.clean_record r = Ret r' →
  dom r' = dom r
  ∧ ∀ k v, r !! k = Some v →
      ∃ v', r' !! k = Some v'
            ∧ v' ≠ VFloat S754_nan
            ∧ (k ∈ import_fy2025_payroll.int_cols_set →
               v' = VNone ∨ ∃ n, v' = VInt n)
            ∧ (k ∉ import_fy2025_payroll.int_cols_set →
               v' = match v with VFloat S754_nan => VNone | _ => v end).
Proof.
  unfold import_fy2025_payroll.clean_record. intros Hr.
  pose proof (clean_fold r r) as Hfold. rewrite Hr in Hfold. split.
  - apply set_eq. intros k. rewrite !elem_of_dom. specialize (Hfold k).
    destruct (r !! k) as [v|].
    + destruct Hfold as (v' & _ & ->). done.
    + by rewrite Hfold.
  - intros k v Hk. specialize (Hfold k). rewrite Hk in Hfold.
    destruct Hfold as (v' & Hv' & Hr'). exists v'. split; [done|].
    by apply clean_item_returns.
Qed.

(** X13 at a record with a float and a text in integer columns and a NaN. *)
Lemma clean_record_cleans_witness :
  ∃ r', import_fy2025_payroll.clean_record example_fy2025_record = Ret r'
        ∧ dom r' = dom example_fy2025_record.
Proof.
  assert (match import_fy2025_payroll.clean_record example_fy2025_record with
          | Ret _ => True
          | Raise _ => False
          end) as Hret by (vm_compute; exact I).
  destruct (import_fy2025_payroll.clean_record example_fy2025_record)
    as [r'|e] eqn:Hr; [|destruct Hret].
  exists r'. split; [reflexivity|].
  exact (proj1 (clean_record_cleans example_fy2025_record r' Hr)).
Defined.

(** X14. The clean-up of a record raises exactly when an integer column
    holds a value whose conversion overflows: an infinite float, the text of
    one, or an integer outside the range of the floats.  The exception is an
    [OverflowError], which the handler of the loop does not catch. *)
Theorem clean_record_raises (r : record) :
  (∀ e, import_fy2025_payroll.clean_record r = Raise e → e = OverflowError)
  ∧ (import_fy2025_payroll.clean_record r = Raise OverflowError
     ↔ ∃ k v, r !! k = Some v
              ∧ k ∈ import_fy2025_payroll.int_cols_set
              ∧ v ≠ VNone
              ∧ (import_fy2025_payroll.float_value v = Raise OverflowError
                 ∨ ∃ sign, import_fy2025_payroll.float_value v
                           = Ret (S754_infinity sign))).
Proof.
  unfold import_fy2025_payroll.clean_record.
  pose proof (clean_fold r r) as Hfold.
  destruct (map_fold _ _ _) as [r'|e].
  - split; [done|]. split; [done|].
    intros (k & v & Hk & Hint & Hnone & Hv). specialize (Hfold k).
    rewrite Hk in Hfold. destruct Hfold as (v' & Hv' & _).
    unfold import_fy2025_payroll.clean_item in Hv'.
    rewrite bool_decide_eq_true_2 in Hv' by done.
    destruct Hv as [Hv|[sign Hv]]; rewrite Hv in Hv';
      by destruct v as [| | |[]| |].
  - destruct Hfold as (k & v & Hk & Hv).
    destruct (clean_item_raises _ _ _ Hv) as (-> & Hint & Hover).
    split; [by intros ? [= <-]|]. split; [|done].
    intros _. exists k, v. split_and!; [done | done | | done].
    intros ->. discriminate Hv.
Qed.

(** ** The column of the active flag *)

Lemma first_active_column_spec (header_row : list value) :
  match import_payroll.first_active_column header_row with
  | Some col_name =>
      ∃ before after,
        header_row = before ++ VStr col_name :: after
        ∧ col_name ≠ ""
        ∧ Py.contains "ACTIVE_ON_JUNE_30" (Py.upper col_name) = true
        ∧ Forall (λ cell, import_payroll.is_active_column cell = None) before
  | None =>
      Forall (λ cell, import_payroll.is_active_column cell = None) header_row
  end.
Proof.
  induction header_row as [|cell header_row IH]; simpl; [constructor|].
  destruct (import_payroll.is_active_column cell) as [s|] eqn:Hcell.
  - exists [], header_row. unfold import_payroll.is_active_column in Hcell.
    destruct cell as [| | | |t|]; try done.
    destruct (String.eqb_spec t ""); [done|]. simpl in Hcell.
    destruct (Py.contains _ _) eqn:Hc; [|done]. injection Hcell as <-.
    split_and!; [done | done | done | constructor].
  - destruct (import_payroll.first_active_column header_row) as [s|].
    + destruct IH as (before & after & -> & Hne & Hc & Hb).
      exists (cell :: before), after. split_and!; [done | done | done |].
      by constructor.
    + by constructor.
Qed.

(** X15. The column of the active flag is the first header of the roster
    sheet that is a non-empty text with [ACTIVE_ON_JUNE_30] in it, in any
    case of its ASCII letters; the name returned is the header as it is
    written.  Without a roster sheet, or without such a header, there is
    none.  The fiscal year takes no part: the year in the name of the column
    is not compared with it. *)
Theorem get_active_column_name_first (wb : import_payroll.workbook)
    (fiscal_year : Z) :
  match import_payroll.get_active_column_name wb fiscal_year with
  | Some col_name =>
      ∃ hr_sheet_name before after,
        import_payroll.find_sheet_by_pattern wb "HR INFO" = Some hr_sheet_name
        ∧ import_payroll.header (import_payroll.get_sheet wb hr_sheet_name)
          = before ++ VStr col_name :: after
        ∧ col_name ≠ ""
        ∧ Py.contains "ACTIVE_ON_JUNE_30" (Py.upper col_name) = true
        ∧ Forall (λ cell, import_payroll.is_active_column cell = None) before
        ∧ ∀ year, import_payroll.get_active_column_name wb year
                  = Some col_name
  | None =>
      import_payroll.find_sheet_by_pattern wb "HR INFO" = None
      ∨ ∃ hr_sheet_name,
          import_payroll.find_sheet_by_pattern wb "HR INFO"
          = Some hr_sheet_name
          ∧ Forall (λ cell, import_payroll.is_active_column cell = None)
              (import_payroll.header
                 (import_payroll.get_sheet wb hr_sheet_name))
  end.
Proof.
  unfold import_payroll.get_active_column_name.
  destruct (import_payroll.find_sheet_by_pattern wb "HR INFO")
    as [hr_sheet_name|]; [|by left].
  pose proof (first_active_column_spec
                (import_payroll.header
                   (import_payroll.get_sheet wb hr_sheet_name))) as Hspec.
  destruct (import_payroll.first_active_column _) as [col_name|].
  - destruct Hspec as (before & after & Hh & Hne & Hc & Hb).
    exists hr_sheet_name, before, after. by split_and!.
  - right. by exists hr_sheet_name.
Qed.

(** ** The counts of the FY2025 and of the budget loader *)

Lemma upsert_batches_counts {St} (upsert : St → list record → St * outcome)
    (bs : list (list record)) (s : load_state St) :
  let run := import_fy2025_payroll.upsert_batches upsert bs s in
  (total_inserted run.1 ≤ total_inserted s + length (concat bs))%nat
  ∧ (run.2 = false →
     total_inserted run.1 = (total_inserted s + length (concat bs))%nat
     ∧ calls run.1 = calls s ++ ((λ b, Upsert b true) <$> bs)).
Proof.
  revert s. induction bs as [|batch bs IH]; intros s; simpl.
  - rewrite app_nil_r. split; [lia|]. intros _. split; [lia | done].
  - rewrite length_app.
    destruct (upsert (store s) batch) as [st [|data]]; simpl.
    + split; [lia | done].
    + specialize (IH
        {| store := st; total_inserted := total_inserted s + length batch;
           skipped := skipped s; calls := calls s ++ [Upsert batch true] |}).
      simpl in IH. destruct IH as [Hle Hall]. split; [lia|].
      intros Hrun. destruct (Hall Hrun) as [-> ->].
      split; [lia | by rewrite <- app_assoc].
Qed.

(** X16. When no call of the store on a batch raises, the FY2025 loader
    with a batch size above zero ends without an exception and upserts every
    record once: its calls are one upsert on each batch, in order, the
    batches concatenate to the records, and the count of rows printed at
    the end is the number of the records. *)
Theorem fy2025_load_complete {St} (upsert : St → list record → St * outcome)
    (batch_size : nat) (st : St) (records : list record) :
  (0 < batch_size)%nat →
  (∀ st batch,
     batch ∈ batches records batch_size → (upsert st batch).2 ≠ Raised) →
  let run := import_fy2025_payroll.load_with upsert batch_size st records in
  run.2 = false
  ∧ calls run.1 = (λ b, Upsert b true) <$> batches records batch_size
  ∧ concat (call_batch <$> calls run.1) = records
  ∧ total_inserted run.1 = length records.
Proof.
  intros Hpos Hstore run. subst run.
  unfold import_fy2025_payroll.load_with in *.
  pose proof (upsert_batches_no_raise upsert (batches records batch_size)
                {| store := st; total_inserted := 0; skipped := 0;
                   calls := [] |} Hstore) as Hrun.
  destruct (upsert_batches_counts upsert (batches records batch_size)
              {| store := st; total_inserted := 0; skipped := 0;
                 calls := [] |}) as [_ Hall].
  destruct (Hall Hrun) as [Hcount Hcalls]. simpl in Hcount, Hcalls.
  rewrite batches_concat in Hcount by done. split_and!; [done|done| |done].
  rewrite Hcalls, <- list_fmap_compose.
  replace (call_batch ∘ (λ b, Upsert b true)) with (@id (list record)) by done.
  rewrite list_fmap_id. by apply batches_concat.
Qed.

(** X16 at the five records of the scenario in batches of two, with a
    store that returns the rows of every batch. *)
Lemma fy2025_load_complete_witness :
  let run :=
    import_fy2025_payroll.load_with (λ (st : unit) batch, (st, Data batch))
      2 tt scenario_records in
  length (calls run.1) = 3%nat ∧ total_inserted run.1 = 5%nat.
Proof.
  split; [reflexivity|].
  refine (proj2 (proj2 (proj2 (fy2025_load_complete
                                 (λ (st : unit) batch, (st, Data batch))
                                 2 tt scenario_records _ _)))); [lia|].
  intros st batch _. discriminate.
Defined.

Section BudgetCounts.
Context {St : Type}.
Variables upsert insert : St → list record → St * outcome.
(** The store returns no more rows than it was given. *)
Hypothesis upsert_data :
  ∀ st batch data,
    (upsert st batch).2 = Data data → (length data ≤ length batch)%nat.
Hypothesis insert_data :
  ∀ st batch data,
    (insert st batch).2 = Data data → (length data ≤ length batch)%nat.

Lemma load_batches_counts (bs : list (list record)) (s : load_state St) :
  (total_inserted (import_budgets.load_batches upsert insert bs s).1
   ≤ total_inserted s + length (concat bs))%nat.
Proof.
  revert s. induction bs as [|batch bs IH]; intros s; simpl; [lia|].
  rewrite length_app.
  pose proof (upsert_data (store s) batch) as Hu.
  destruct (upsert (store s) batch) as [st1 [|data1]]; simpl in Hu.
  - pose proof (insert_data st1 batch) as Hi.
    destruct (insert st1 batch) as [st2 [|data2]]; simpl in Hi; simpl; [lia|].
    etrans; [apply IH|]. simpl. specialize (Hi data2 eq_refl).
    destruct data2; simpl in *; lia.
  - etrans; [apply IH|]. simpl. specialize (Hu data1 eq_refl). lia.
Qed.

End BudgetCounts.

(** X17. With a batch size above zero and a store that returns no more rows
    than a call gave it, the budget import of a file never reports more
    inserted rows than the file has rows that parse; together with the
    skipped rows the report never exceeds the rows of the file. *)
Theorem import_budget_file_counts {St}
    (upsert insert : St → list record → St * outcome) (batch_size : nat)
    (st : St) (rows : list import_budgets.csv_row) :
  (0 < batch_size)%nat →
  (∀ st batch data,
     (upsert st batch).2 = Data data → (length data ≤ length batch)%nat) →
  (∀ st batch data,
     (insert st batch).2 = Data data → (length data ≤ length batch)%nat) →
  let run :=
    import_budgets.import_budget_file_with upsert insert batch_size st
      (Some rows) in
  (total_inserted run
   ≤ length (omap import_budgets.parse_budget_row rows))%nat
  ∧ (total_inserted run + skipped run ≤ length rows)%nat.
Proof.
  intros Hpos Hu Hi run. subst run.
  unfold import_budgets.import_budget_file_with, import_budgets.read_rows.
  destruct (read_rows_fold rows ([], 0%nat)) as [Hrecords Hskipped].
  destruct (fold_left import_budgets.read_row rows ([], 0%nat))
    as [records skipped]. simpl in Hrecords, Hskipped. subst records.
  set (records := omap import_budgets.parse_budget_row rows) in *.
  destruct (loaders_budget_run upsert insert st records batch_size skipped)
    as (raised & _ & Hs & _).
  assert (total_inserted
            (import_budgets.load_with upsert insert batch_size st records
               skipped) ≤ length records)%nat as Hle.
  { unfold import_budgets.load_with. destruct records as [|r records'] eqn:Hr;
      [simpl; lia|]. rewrite <- Hr.
    pose proof (load_batches_counts upsert insert Hu Hi
                  (batches records batch_size)
                  {| store := st; total_inserted := 0; skipped := skipped;
                     calls := [] |}) as Hc.
    rewrite batches_concat in Hc by done. simpl in Hc.
    destruct (import_budgets.load_batches _ _ _ _) as [s []]; simpl in *; lia. }
  split; [done|]. rewrite Hs. lia.
Qed.

(** X17 at a file of two rows, one without budget period, with a store
    that returns the rows of every batch. *)
Lemma import_budget_file_counts_witness :
  let run :=
    import_budgets.import_budget_file_with
      (λ (st : unit) batch, (st, Data batch))
      (λ (st : unit) batch, (st, Data batch)) 2 tt
      (Some [example_budget_row; ∅]) in
  (total_inserted run + skipped run ≤ 2)%nat.
Proof.
  refine (proj2 (import_budget_file_counts
                   (λ (st : unit) batch, (st, Data batch))
                   (λ (st : unit) batch, (st, Data batch)) 2 tt
                   [example_budget_row; ∅] _ _ _)); [lia| |];
    intros st batch data [= <-]; done.
Defined.
